(** * PSI-to-BigQuery web app: model of [main.py] and its properties

    The program receives a URL, asks Pagespeed Insights (PSI) for a
    performance audit, reshapes the JSON answer into a flat row and appends
    the row to a BigQuery table.  This file embeds the four functions of
    [main.py] ([get_psi_audit], [extract_audits], [insert_audits],
    [submit_test]) over an explicit Python store and proves the properties
    of the specification about them. *)

From Stdlib Require Import ZArith String Ascii List Lia DecimalString SpecFloat.
From stdpp Require Import base option list strings gmap.
Import ListNotations.

Local Open Scope string_scope.
Local Open Scope list_scope.

(** ** Python values and the store *)

(** [datetime.datetime], a naive timestamp. *)
Record datetime := Datetime {
  year : Z; month : Z; day : Z;
  hour : Z; minute : Z; second : Z; microsecond : Z
}.

Definition loc := nat.

(** Immutable values are held directly; dicts and lists are objects of the
    store and are held by reference, so two holders of a dict share it. *)
Inductive val :=
| VNone
| VBool (b : bool)
| VInt (z : Z)
| VFloat (f : spec_float)
| VStr (s : string)
| VDatetime (d : datetime)
| VRef (l : loc).

(** A dict with [str] keys, in insertion order. *)
Definition dict := list (string * val).

Inductive obj :=
| ODict (d : dict)
| OList (xs : list val).

Fixpoint dict_get {A} (k : string) (d : list (string * A)) : option A :=
  match d with
  | [] => None
  | (k', v) :: d' => if String.eqb k k' then Some v else dict_get k d'
  end.

(** [d[k] = v]: an existing key keeps its position, a new key goes last. *)
Fixpoint dict_set {A} (k : string) (v : A) (d : list (string * A)) : list (string * A) :=
  match d with
  | [] => [(k, v)]
  | (k', v') :: d' =>
      if String.eqb k k' then (k', v) :: d' else (k', v') :: dict_set k v d'
  end.

Definition keys {A} (d : list (string * A)) : list string := map fst d.

(** ** Exceptions *)

Inductive exn :=
| KeyError (key : string)
| TypeError (msg : string)
| ValueError (msg : string)
| RuntimeError (msg : string)
| HttpError (status_code : Z) (error_details : string)
| BadRequestKeyError (key : string)
| SystemError (msg : string)
| ForeignError (mro : list string) (msg : string).

(** The classes an exception is an instance of (its class first).
    [ForeignError] stands for any other class a collaborator raises and
    carries the class's own resolution order.  [SystemError] marks the
    use of a reference to nothing, which no Python program can hold: a
    store without dangling references never raises it. *)
Definition exn_mro (e : exn) : list string :=
  match e with
  | KeyError _ => ["KeyError"; "LookupError"; "Exception"; "BaseException"]
  | TypeError _ => ["TypeError"; "Exception"; "BaseException"]
  | ValueError _ => ["ValueError"; "Exception"; "BaseException"]
  | RuntimeError _ => ["RuntimeError"; "Exception"; "BaseException"]
  | HttpError _ _ => ["HttpError"; "Error"; "Exception"; "BaseException"]
  | BadRequestKeyError _ =>
      ["BadRequestKeyError"; "BadRequest"; "HTTPException"; "KeyError";
       "LookupError"; "Exception"; "BaseException"]
  | SystemError _ => ["SystemError"; "Exception"; "BaseException"]
  | ForeignError mro _ => mro
  end.

Definition isinstance (e : exn) (cls : string) : bool :=
  existsb (String.eqb cls) (exn_mro e).

(** [str(e)]. *)
Definition exn_str (e : exn) : string :=
  match e with
  | KeyError k | BadRequestKeyError k => "'" +:+ k +:+ "'"
  | TypeError m | ValueError m | RuntimeError m | SystemError m
  | ForeignError _ m => m
  | HttpError _ d => d
  end.

Inductive outcome (A : Type) :=
| Ok (a : A)
| Raise (e : exn).
Arguments Ok {A} a.
Arguments Raise {A} e.

(** ** The process state *)

(** One record handed to the logging sink by [logging.exception]. *)
Record log_record := LogRecord { log_msg : string; log_exc : exn }.

Record world := World {
  heap : list obj;                          (* Python objects, by location *)
  environ : gmap string string;             (* os.environ *)
  log : list log_record;                    (* records sent to the sink *)
  tables : gmap string (list dict)          (* rows held by each table *)
}.

Definition set_heap (w : world) (h : list obj) : world :=
  {| heap := h; environ := environ w; log := log w; tables := tables w |}.

Definition add_log (w : world) (r : log_record) : world :=
  {| heap := heap w; environ := environ w; log := log w ++ [r];
     tables := tables w |}.

Definition set_tables (w : world) (t : gmap string (list dict)) : world :=
  {| heap := heap w; environ := environ w; log := log w; tables := t |}.

(** Computations read and write the process state and may raise. *)
Definition M (A : Type) : Type := world -> outcome A * world.

Definition ret {A} (a : A) : M A := fun w => (Ok a, w).
Definition raise {A} (e : exn) : M A := fun w => (Raise e, w).
Definition bind {A B} (c : M A) (k : A -> M B) : M B := fun w =>
  match c w with
  | (Ok a, w') => k a w'
  | (Raise e, w') => (Raise e, w')
  end.

Declare Scope py_scope.
Delimit Scope py_scope with py.
Notation "x <- c ;; k" := (bind c (fun x => k))
  (at level 100, c at next level, right associativity) : py_scope.
Notation "c ;;; k" := (bind c (fun _ => k))
  (at level 100, right associativity) : py_scope.
Local Open Scope py_scope.

(** [for x in xs: body(x)]. *)
Fixpoint for_each {A} (xs : list A) (body : A -> M unit) : M unit :=
  match xs with
  | [] => ret tt
  | x :: xs' => body x ;;; for_each xs' body
  end.

(** [{}]: a new empty dict at the next free location. *)
Definition new_dict : M val := fun w =>
  (Ok (VRef (length (heap w))), set_heap w (heap w ++ [ODict []])).

(** [o[k]] for a [str] key [k], in the store [h].  The class of each
    error is Python's; the text of the [TypeError] for a string is that of
    Python up to 3.10, later versions add the type of the key. *)
Definition subscript (h : list obj) (o : val) (k : string) : outcome val :=
  match o with
  | VRef l =>
      match h !! l with
      | Some (ODict d) =>
          match dict_get k d with
          | Some v => Ok v
          | None => Raise (KeyError k)
          end
      | Some (OList _) =>
          Raise (TypeError "list indices must be integers or slices, not str")
      | None => Raise (SystemError "dangling reference")
      end
  | VStr _ => Raise (TypeError "string indices must be integers")
  | VNone => Raise (TypeError "'NoneType' object is not subscriptable")
  | VBool _ => Raise (TypeError "'bool' object is not subscriptable")
  | VInt _ => Raise (TypeError "'int' object is not subscriptable")
  | VFloat _ => Raise (TypeError "'float' object is not subscriptable")
  | VDatetime _ =>
      Raise (TypeError "'datetime.datetime' object is not subscriptable")
  end.

Definition getitem (o : val) (k : string) : M val := fun w =>
  (subscript (heap w) o k, w).

(** [o[k] = v] on a dict [o]. *)
Definition setitem (o : val) (k : string) (v : val) : M unit := fun w =>
  match o with
  | VRef l =>
      match heap w !! l with
      | Some (ODict d) => (Ok tt, set_heap w (<[l := ODict (dict_set k v d)]> (heap w)))
      | Some (OList _) =>
          (Raise (TypeError "list indices must be integers or slices, not str"), w)
      | None => (Raise (SystemError "dangling reference"), w)
      end
  | _ => (Raise (TypeError "object does not support item assignment"), w)
  end.

(** [d[k]] on a dict literal of the program text. *)
Definition const_getitem (d : list (string * string)) (k : string) : M string :=
  match dict_get k d with
  | Some v => ret v
  | None => raise (KeyError k)
  end.

(** ** [datetime.strptime]

    The standard library turns the format into a regular expression, one
    group per directive, compiles it ignoring case, matches it at the start
    of the data and rejects data left over after the match; the groups are
    converted with [int] and handed to the [datetime] constructor, which
    checks the calendar.  The model is for data in ASCII, where [\d] and
    [[0-9]] coincide; Python's [\d] and [int] also take the decimal
    digits of other scripts, so that on other data the model may raise
    where Python parses.  The text of the [TypeError] for data that is no
    string is cut short: Python adds the name of the type. *)

(** A matcher lists, in the order a backtracking engine tries them, the
    text it can consume together with what is left. *)
Definition matcher := string -> list (string * string).

Definition cls (f : ascii -> bool) : matcher := fun s =>
  match s with
  | String c r => if f c then [(String c "", r)] else []
  | EmptyString => []
  end.

Definition cat (p q : matcher) : matcher := fun s =>
  flat_map (fun ar => map (fun br => (fst ar +:+ fst br, snd br)) (q (snd ar))) (p s).

Definition alt (p q : matcher) : matcher := fun s => p s ++ q s.

Definition eps : matcher := fun s => [("", s)].

(** [p{0,n}], greedy. *)
Fixpoint upto (n : nat) (p : matcher) : matcher :=
  match n with
  | O => eps
  | S n' => alt (cat p (upto n' p)) eps
  end.

Definition in_range (lo hi c : ascii) : bool :=
  (N_of_ascii lo <=? N_of_ascii c)%N && (N_of_ascii c <=? N_of_ascii hi)%N.

Definition rng (lo hi : ascii) : matcher := cls (in_range lo hi).
Definition chr (c : ascii) : matcher := cls (Ascii.eqb c).
Definition digit : matcher := rng "0" "9".

(** The groups of the directives the program's format uses. *)
Definition re_Y : matcher := cat digit (cat digit (cat digit digit)).

Definition re_m : matcher :=
  alt (cat (chr "1") (rng "0" "2"))
 (alt (cat (chr "0") (rng "1" "9"))
      (rng "1" "9")).

Definition re_d : matcher :=
  alt (cat (chr "3") (rng "0" "1"))
 (alt (cat (rng "1" "2") digit)
 (alt (cat (chr "0") (rng "1" "9"))
 (alt (rng "1" "9")
      (cat (chr " ") (rng "1" "9"))))).

Definition re_H : matcher :=
  alt (cat (chr "2") (rng "0" "3"))
 (alt (cat (rng "0" "1") digit)
      digit).

Definition re_M : matcher := alt (cat (rng "0" "5") digit) digit.

Definition re_S : matcher :=
  alt (cat (chr "6") (rng "0" "1"))
 (alt (cat (rng "0" "5") digit)
      digit).

Definition re_f : matcher := cat digit (upto 5 digit).

Definition directive_re (d : ascii) : option matcher :=
  match d with
  | "Y"%char => Some re_Y
  | "m"%char => Some re_m
  | "d"%char => Some re_d
  | "H"%char => Some re_H
  | "M"%char => Some re_M
  | "S"%char => Some re_S
  | "f"%char => Some re_f
  | _ => None
  end.

(** The compiled pattern: literals and named groups. *)
Inductive item :=
| ILit (c : ascii)
| IGroup (d : ascii) (p : matcher).

(** [None] when the format names a directive without a group. *)
Fixpoint compile (fmt : string) : option (list item) :=
  match fmt with
  | EmptyString => Some []
  | String c r =>
      if Ascii.eqb c "%" then
        match r with
        | String d r' =>
            match directive_re d, compile r' with
            | Some p, Some its => Some (IGroup d p :: its)
            | _, _ => None
            end
        | EmptyString => None
        end
      else
        match compile r with
        | Some its => Some (ILit c :: its)
        | None => None
        end
  end.

Definition ascii_lower (c : ascii) : ascii :=
  if in_range "A" "Z" c then ascii_of_N (N_of_ascii c + 32) else c.

(** A literal of the format matches ignoring case. *)
Definition lit (c : ascii) : matcher :=
  cls (fun a => Ascii.eqb (ascii_lower a) (ascii_lower c)).

Definition groups := list (ascii * string).

(** Matches of the whole pattern at the start of the data, in the order
    the engine finds them: the groups and the data left over. *)
Fixpoint run (its : list item) (s : string) : list (groups * string) :=
  match its with
  | [] => [([], s)]
  | ILit c :: its' => flat_map (fun ar => run its' (snd ar)) (lit c s)
  | IGroup d p :: its' =>
      flat_map (fun ar =>
                  map (fun fr => ((d, fst ar) :: fst fr, snd fr))
                      (run its' (snd ar)))
               (p s)
  end.

Fixpoint group (d : ascii) (g : groups) : option string :=
  match g with
  | [] => None
  | (d', t) :: g' => if Ascii.eqb d d' then Some t else group d g'
  end.

Definition digit_val (c : ascii) : Z := Z.of_N (N_of_ascii c) - 48.

Fixpoint int_digits (acc : Z) (s : string) : Z :=
  match s with
  | EmptyString => acc
  | String c r => int_digits (10 * acc + digit_val c) r
  end.

Fixpoint lstrip (s : string) : string :=
  match s with
  | String c r => if Ascii.eqb c " " then lstrip r else s
  | EmptyString => s
  end.

(** [int(s)] on the text of a group: blanks, then decimal digits. *)
Definition int (s : string) : Z := int_digits 0 (lstrip s).

(** [s += "0" * (6 - len(s))]. *)
Definition pad6 (s : string) : string :=
  s +:+ string_of_list_ascii (repeat "0"%char (6 - String.length s)).

Definition is_leap (y : Z) : bool :=
  (y mod 4 =? 0)%Z && (negb (y mod 100 =? 0)%Z || (y mod 400 =? 0)%Z).

Definition days_in_month (y m : Z) : Z :=
  if (m =? 2)%Z then (if is_leap y then 29 else 28)%Z
  else if (m =? 4)%Z || (m =? 6)%Z || (m =? 9)%Z || (m =? 11)%Z then 30%Z
  else 31%Z.

Definition between (lo x hi : Z) : bool := (lo <=? x)%Z && (x <=? hi)%Z.

(** The checks of the [datetime] constructor. *)
Definition datetime_new (y mo d h mi s us : Z) : outcome datetime :=
  if negb (between 1 y 9999) then Raise (ValueError "year is out of range")
  else if negb (between 1 mo 12) then Raise (ValueError "month must be in 1..12")
  else if negb (between 1 d (days_in_month y mo))
    then Raise (ValueError "day is out of range for month")
  else if negb (between 0 h 23) then Raise (ValueError "hour must be in 0..23")
  else if negb (between 0 mi 59) then Raise (ValueError "minute must be in 0..59")
  else if negb (between 0 s 59) then Raise (ValueError "second must be in 0..59")
  else if negb (between 0 us 999999)
    then Raise (ValueError "microsecond must be in 0..999999")
  else Ok (Datetime y mo d h mi s us).

Definition group_int (d : ascii) (dflt : Z) (g : groups) : Z :=
  match group d g with
  | Some t => int t
  | None => dflt
  end.

(** [datetime.strptime(data, fmt)] on two strings. *)
Definition strptime_str (data fmt : string) : outcome datetime :=
  match compile fmt with
  | None => Raise (ValueError "bad directive in format")
  | Some its =>
      match run its data with
      | [] => Raise (ValueError "time data does not match format")
      | (g, rest) :: _ =>
          if negb (String.eqb rest "")
          then Raise (ValueError "unconverted data remains")
          else
            datetime_new
              (group_int "Y" 1900 g) (group_int "m" 1 g) (group_int "d" 1 g)
              (group_int "H" 0 g) (group_int "M" 0 g) (group_int "S" 0 g)
              (match group "f" g with
               | Some t => int (pad6 t)
               | None => 0%Z
               end)
      end
  end.

Definition strptime (data : val) (fmt : string) : M val :=
  match data with
  | VStr s =>
      match strptime_str s fmt with
      | Ok d => ret (VDatetime d)
      | Raise e => raise e
      end
  | _ => raise (TypeError "strptime() argument 1 must be str")
  end.

(** ** [extract_audits] *)

Definition audits : list (string * string) :=
  [ ("speed-index", "speed_index");
    ("first-contentful-paint", "first_contentful_paint");
    ("first-meaningful-paint", "first_meaningful_paint");
    ("server-response-time", "server_response_time");
    ("network-server-latency", "network_server_latency");
    ("cumulative-layout-shift", "cumulative_layout_shift");
    ("interactive", "interactive");
    ("largest-contentful-paint", "largest_contentful_paint");
    ("total-blocking-time", "total_blocking_time");
    ("first-cpu-idle", "first_cpu_idle");
    ("max-potential-fid", "max_potential_fid");
    ("total-byte-weight", "total_byte_weight");
    ("estimated-input-latency", "estimated_input_latency") ].

Definition timestamp_format : string := "%Y-%m-%dT%H:%M:%S.%fZ".

(** One turn of the loop, for the audit identifier [a]. *)
Definition extract_one (psi_json to_return : val) (a : string) : M unit :=
  lighthouse <- getitem psi_json "lighthouseResult" ;;
  all_audits <- getitem lighthouse "audits" ;;
  audit <- getitem all_audits a ;;
  numeric <- getitem audit "numericValue" ;;
  column <- const_getitem audits a ;;
  setitem to_return column numeric.

Definition extract_audits (psi_json : val) : M val :=
  to_return <- new_dict ;;
  stamp <- getitem psi_json "analysisUTCTimestamp" ;;
  date <- strptime stamp timestamp_format ;;
  setitem to_return "date" date ;;;
  lighthouse <- getitem psi_json "lighthouseResult" ;;
  final_url <- getitem lighthouse "finalUrl" ;;
  setitem to_return "url" final_url ;;;
  for_each (keys audits) (extract_one psi_json to_return) ;;;
  ret to_return.

(** ** Collaborators

    The audit service and the table service are outside the program.
    Their answers are given by a [services] record, so every property
    below holds whatever they answer.  The table service keeps the rows of
    each table in [tables]: a batch none of whose rows is rejected is
    stored as it is given. *)

(** The request built by [runpagespeed(url=..., category=..., strategy=...)]. *)
Record psi_request := PsiRequest {
  req_url : string; req_category : string; req_strategy : string
}.

(** One entry of the error collection of [insert_rows], by its [repr]. *)
Definition row_error := string.

Record services := Services {
  (* psi_request.execute(): the parsed report, or the exception raised *)
  psi_reply : psi_request -> outcome val;
  (* bigquery.Client(): a client handle, or the exception raised *)
  bq_client : outcome unit;
  (* what get_table raises for a name it gives no handle for: NotFound
     when there is no such table, ValueError when the client cannot
     parse the name *)
  bq_no_table : string -> exn;
  (* what the table service answers to a batch of rows: the per-row
     errors (none when all rows are taken), or the exception raised *)
  bq_reply : string -> list dict -> outcome (list row_error)
}.

Definition os_environ_getitem (k : string) : M string := fun w =>
  match environ w !! k with
  | Some v => (Ok v, w)
  | None => (Raise (KeyError k), w)
  end.

(** [logging.exception(msg)] while [e] is being handled. *)
Definition logging_exception (msg : string) (e : exn) : M unit := fun w =>
  (Ok tt, add_log w (LogRecord msg e)).

(** [try: body / except catches as e: handler(e)]. *)
Definition try_except {A} (body : M A) (catches : exn -> bool)
    (handler : exn -> M A) : M A := fun w =>
  match body w with
  | (Ok a, w') => (Ok a, w')
  | (Raise e, w') => if catches e then handler e w' else (Raise e, w')
  end.

Definition status_code_of (e : exn) : Z :=
  match e with HttpError c _ => c | _ => 0%Z end.

Definition error_details_of (e : exn) : string :=
  match e with HttpError _ d => d | _ => "" end.

(** ['%d' % z]. *)
Definition format_d (z : Z) : string := NilZero.string_of_int (Z.to_int z).

(** [str(xs)] of a list, from the [repr] of its elements. *)
Fixpoint join (sep : string) (xs : list string) : string :=
  match xs with
  | [] => ""
  | [x] => x
  | x :: xs' => x +:+ sep +:+ join sep xs'
  end.

Definition list_str (xs : list string) : string := "[" +:+ join ", " xs +:+ "]".

(** The mapping a row value denotes. *)
Definition row_dict (h : list obj) (v : val) : option dict :=
  match v with
  | VRef l => match h !! l with Some (ODict d) => Some d | _ => None end
  | _ => None
  end.

Section Program.

Variable svc : services.

(** [bq_client.get_table(name)]: the handle of an existing table is its
    qualified name; for any other name the call raises. *)
Definition get_table (name : string) : M string := fun w =>
  match tables w !! name with
  | Some _ => (Ok name, w)
  | None => (Raise (bq_no_table svc name), w)
  end.

(** [bq_client.insert_rows(table, rows)]: the rows are sent as one batch;
    the batch is stored when no row is rejected.  What the service keeps
    of a batch when the call raises or reports errors is outside the
    program; the model takes the table to be as it was. *)
Definition insert_rows (table : string) (rows : list val) : M (list row_error) :=
  fun w =>
  match mapM (row_dict (heap w)) rows with
  | None => (Raise (TypeError "rows argument should be a sequence of dicts"), w)
  | Some ds =>
      match bq_reply svc table ds with
      | Raise e => (Raise e, w)
      | Ok [] =>
          (Ok [], set_tables w
                    (<[table := default [] (tables w !! table) ++ ds]> (tables w)))
      | Ok errs => (Ok errs, w)
      end
  end.

(** ** [get_psi_audit]

    [build], [pagespeedapi] and [runpagespeed] put the request together
    and the two [close] release the session; the remote call is
    [execute].  [psi_response] is [None] unless [execute] returns. *)

Definition get_psi_audit (test_url : string) : M val :=
  let psi_request := PsiRequest test_url "PERFORMANCE" "MOBILE" in
  try_except
    (fun w => (psi_reply svc psi_request, w))
    (fun he => isinstance he "HttpError")
    (fun he =>
       logging_exception
         ("PSI Error " +:+ format_d (status_code_of he) +:+ ": "
            +:+ error_details_of he) he ;;;
       ret VNone).

(** ** [insert_audits] *)

Definition bigquery_Client : M unit := fun w => (bq_client svc, w).

Definition insert_audits (table : string) (audits : val) : M unit :=
  bigquery_Client ;;;
  project_name <- os_environ_getitem "GOOGLE_CLOUD_PROJECT" ;;
  bq_table <- get_table (project_name +:+ "." +:+ table) ;;
  errors <- insert_rows bq_table [audits] ;;
  match errors with
  | [] => ret tt
  | _ :: _ =>
      raise (RuntimeError
               ("Failed to write all rows to bigquery: " +:+ list_str errors +:+ "."))
  end.

(** ** The two routes *)

Record request := Request { form : gmap string string }.

(** [flask.render_template(name, state=...)]. *)
Record response := Response { template : string; state : option string }.

Definition render_template (name : string) (st : option string) : response :=
  Response name st.

Definition form_getitem (req : request) (k : string) : M string :=
  match form req !! k with
  | Some v => ret v
  | None => raise (BadRequestKeyError k)
  end.

Definition index_page : M response :=
  ret (render_template "index.html" None).

Definition submit_test (req : request) : M response :=
  test_url <- form_getitem req "test_url" ;;
  psi_object <- get_psi_audit test_url ;;
  audits <- extract_audits psi_object ;;
  bq_table <- os_environ_getitem "BIGQUERY_TABLE" ;;
  try_except
    (insert_audits bq_table audits ;;;
     ret (render_template "index.html" (Some "success")))
    (fun err => isinstance err "ValueError" || isinstance err "RuntimeError")
    (fun err =>
       logging_exception (exn_str err) err ;;;
       ret (render_template "index.html" (Some "failure"))).

End Program.


(** ** Notions used to state the properties *)

(** [v[k1][k2]...[kn]] in the store [h]. *)
Fixpoint resolve (h : list obj) (v : val) (path : list string) : outcome val :=
  match path with
  | [] => Ok v
  | k :: path' =>
      match subscript h v k with
      | Ok v' => resolve h v' path'
      | Raise e => Raise e
      end
  end.

Definition timestamp_path : list string := ["analysisUTCTimestamp"].
Definition url_path : list string := ["lighthouseResult"; "finalUrl"].
Definition metric_path (a : string) : list string :=
  ["lighthouseResult"; "audits"; a; "numericValue"].

(** The fifteen places [extract_audits] reads. *)
Definition required_paths : list (list string) :=
  timestamp_path :: url_path :: map metric_path (keys audits).

(** A place of the report that cannot be read. *)
Definition missing (h : list obj) (v : val) (path : list string) : bool :=
  match resolve h v path with
  | Ok _ => false
  | Raise _ => true
  end.


(** No dangling reference: what a stored object refers to is stored. *)
Definition val_in (h : list obj) (v : val) : bool :=
  match v with
  | VRef l => Nat.ltb l (length h)
  | _ => true
  end.

Definition obj_closed (h : list obj) (o : obj) : bool :=
  match o with
  | ODict d => forallb (fun kv => val_in h (snd kv)) d
  | OList xs => forallb (val_in h) xs
  end.

Definition closed (h : list obj) : bool := forallb (obj_closed h) h.

(** The cells the loop writes, in order: column and value. *)
Fixpoint metric_cells (h : list obj) (psi : val) (ids : list string)
  : outcome (list (string * val)) :=
  match ids with
  | [] => Ok []
  | a :: ids' =>
      match resolve h psi (metric_path a) with
      | Raise e => Raise e
      | Ok v =>
          match dict_get a audits with
          | None => Raise (KeyError a)
          | Some col =>
              match metric_cells h psi ids' with
              | Raise e => Raise e
              | Ok cells => Ok ((col, v) :: cells)
              end
          end
      end
  end.

Definition set_cell (d : dict) (c : string * val) : dict :=
  dict_set (fst c) (snd c) d.

Definition parse_stamp (v : val) : outcome val :=
  match v with
  | VStr s =>
      match strptime_str s timestamp_format with
      | Ok d => Ok (VDatetime d)
      | Raise e => Raise e
      end
  | _ => Raise (TypeError "strptime() argument 1 must be str")
  end.

(** The row as a function of the report: what [extract_audits] leaves in
    its new dict (see [extract_audits_ok] and [extract_audits_raise]). *)
Definition extract_row (h : list obj) (psi : val) : outcome dict :=
  match resolve h psi timestamp_path with
  | Raise e => Raise e
  | Ok stamp =>
      match parse_stamp stamp with
      | Raise e => Raise e
      | Ok date =>
          match resolve h psi url_path with
          | Raise e => Raise e
          | Ok final_url =>
              match metric_cells h psi (keys audits) with
              | Raise e => Raise e
              | Ok cells =>
                  Ok (fold_left set_cell cells
                        [("date", date); ("url", final_url)])
              end
          end
      end
  end.

(** [s] occurs in [t]. *)
Definition occurs_in (s t : string) : Prop :=
  exists pre post, t = pre +:+ s +:+ post.

(** A report with every place [extract_audits] reads, and a timestamp the
    format accepts. *)
Definition complete_report (h : list obj) (psi : val) : Prop :=
  (exists s dt, resolve h psi timestamp_path = Ok (VStr s)
                /\ strptime_str s timestamp_format = Ok dt)
  /\ (exists u, resolve h psi url_path = Ok u)
  /\ forall a, In a (keys audits) ->
               exists v, resolve h psi (metric_path a) = Ok v.

(** The request [get_psi_audit] sends for a URL. *)
Definition audit_request (url : string) : psi_request :=
  PsiRequest url "PERFORMANCE" "MOBILE".

Definition write_error_message (errs : list row_error) : string :=
  "Failed to write all rows to bigquery: " +:+ list_str errs +:+ ".".

(** ** Shapes of timestamp text *)

(** The thirteen metric identifiers, as the specification lists them. *)
Definition metric_ids : list string :=
  [ "speed-index"; "first-contentful-paint"; "first-meaningful-paint";
    "server-response-time"; "network-server-latency";
    "cumulative-layout-shift"; "interactive"; "largest-contentful-paint";
    "total-blocking-time"; "first-cpu-idle"; "max-potential-fid";
    "total-byte-weight"; "estimated-input-latency" ].

(** An identifier with every hyphen written as an underscore. *)
Fixpoint underscored (a : string) : string :=
  match a with
  | EmptyString => EmptyString
  | String c r =>
      String (if Ascii.eqb c "-" then "_"%char else c) (underscored r)
  end.

(** Text of ASCII characters only. *)
Definition is_ascii (s : string) : bool :=
  forallb (fun c => N.ltb (N_of_ascii c) 128) (list_ascii_of_string s).

Definition is_digit (c : ascii) : bool := in_range "0" "9" c.

(** The format as the specification writes it: a letter of
    [YYYY-MM-DDTHH:MM:SS.ffffffZ] that stands for a field is one digit,
    every other character is itself. *)
Definition written_format : string := "YYYY-MM-DDTHH:MM:SS.ffffffZ".

Definition field_letter (c : ascii) : bool :=
  existsb (Ascii.eqb c) ["Y"; "M"; "D"; "H"; "S"; "f"]%char.

Fixpoint matches_written (fmt s : string) : bool :=
  match fmt, s with
  | EmptyString, EmptyString => true
  | String f fmt', String c s' =>
      (if field_letter f then is_digit c else Ascii.eqb f c)
      && matches_written fmt' s'
  | _, _ => false
  end.

Definition matches_written_format (s : string) : bool :=
  matches_written written_format s.

(** What the pattern of [timestamp_format] can match at most: runs of
    digits of bounded length between the separators. *)
Inductive shape :=
| SDigits (lo hi : nat)
| SOneOf (cs : list ascii)
| SOptional (c : ascii).

Fixpoint span_digits (s : string) : nat * string :=
  match s with
  | String c r =>
      if is_digit c
      then (S (fst (span_digits r)), snd (span_digits r))
      else (O, s)
  | EmptyString => (O, s)
  end.

Fixpoint shape_match (sh : list shape) (s : string) : bool :=
  match sh with
  | [] => String.eqb s ""
  | SDigits lo hi :: sh' =>
      Nat.leb lo (fst (span_digits s)) && Nat.leb (fst (span_digits s)) hi
      && shape_match sh' (snd (span_digits s))
  | SOneOf cs :: sh' =>
      match s with
      | String c r => existsb (Ascii.eqb c) cs && shape_match sh' r
      | EmptyString => false
      end
  | SOptional c :: sh' =>
      match s with
      | String c' r => if Ascii.eqb c c' then shape_match sh' r
                       else shape_match sh' s
      | EmptyString => shape_match sh' s
      end
  end.

Definition timestamp_shape : list shape :=
  [ SDigits 4 4; SOneOf ["-"%char];
    SDigits 1 2; SOneOf ["-"%char];
    SOptional " "; SDigits 1 2; SOneOf ["T"; "t"]%char;
    SDigits 1 2; SOneOf [":"%char];
    SDigits 1 2; SOneOf [":"%char];
    SDigits 1 2; SOneOf ["."%char];
    SDigits 1 6; SOneOf ["Z"; "z"]%char ].

Definition matches_timestamp_shape (s : string) : bool :=
  shape_match timestamp_shape s.

(** Text made of digits only, of a length between [lo] and [hi]. *)
Definition digits_text (lo hi : nat) (t : string) : Prop :=
  forallb is_digit (list_ascii_of_string t) = true
  /\ (lo <= String.length t <= hi)%nat.

(** The compiled pattern of the program's format. *)
Definition timestamp_items : list item :=
  [ IGroup "Y" re_Y; ILit "-"; IGroup "m" re_m; ILit "-"; IGroup "d" re_d;
    ILit "T"; IGroup "H" re_H; ILit ":"; IGroup "M" re_M; ILit ":";
    IGroup "S" re_S; ILit "."; IGroup "f" re_f; ILit "Z" ].


(** ** A sample report and process, for the examples *)

Definition sample_stamp : string := "2022-05-01T12:34:56.789012Z".

(** Every audit of the sample report measures the same value. *)
Definition sample_numeric : val := VFloat (S754_finite false 5 (-1)).

(** The report: locations 0 (top level), 1 (lighthouseResult), 2 (audits)
    and 3 (one audit, shared by all thirteen identifiers listed). *)
Definition sample_heap_of (stamp : string) (ids : list string) : list obj :=
  [ ODict [("analysisUTCTimestamp", VStr stamp); ("lighthouseResult", VRef 1)];
    ODict [("finalUrl", VStr "https://example.com/"); ("audits", VRef 2)];
    ODict (map (fun a => (a, VRef 3)) ids);
    ODict [("numericValue", sample_numeric)] ].

Definition sample_environ : gmap string string :=
  <["GOOGLE_CLOUD_PROJECT" := "proj"]> (<["BIGQUERY_TABLE" := "psi.audits"]> ∅).

Definition sample_tables : gmap string (list dict) :=
  <["proj.psi.audits" := []]> ∅.

Definition sample_world_of (stamp : string) (ids : list string) : world :=
  World (sample_heap_of stamp ids) sample_environ [] sample_tables.

Definition sample_world : world := sample_world_of sample_stamp (keys audits).

(** The same report without its ["interactive"] audit. *)
Definition partial_world : world :=
  sample_world_of sample_stamp
    (filter (fun a => negb (String.eqb a "interactive")) (keys audits)).

(** A report whose audits each measure a value of their own: locations 0
    (top level), 1 (lighthouseResult), 2 (audits) and 3 to 15 (the audits,
    in the order of the table, measuring 1 to 13). *)
Definition graded_heap : list obj :=
  [ ODict [("analysisUTCTimestamp", VStr sample_stamp);
           ("lighthouseResult", VRef 1)];
    ODict [("finalUrl", VStr "https://example.com/"); ("audits", VRef 2)];
    ODict (imap (fun i a => (a, VRef (3 + i))) (keys audits)) ]
  ++ map (fun i => ODict [("numericValue", VInt (Z.of_nat i))]) (seq 1 13).

Definition graded_world : world :=
  World graded_heap sample_environ [] sample_tables.

(** What the audit [a] of the graded report measures. *)
Definition graded_value (a : string) : val :=
  default VNone
    (dict_get a (imap (fun i a => (a, VInt (Z.of_nat (S i)))) (keys audits))).

Definition sample_report : val := VRef 0.

Definition sample_date : datetime := Datetime 2022 5 1 12 34 56 789012.

Definition sample_request : request :=
  Request (<["test_url" := "https://example.com"]> ∅).

(** The [NotFound] of [get_table]. *)
Definition not_found (name : string) : exn :=
  ForeignError ["NotFound"; "ClientError"; "GoogleAPICallError";
                "GoogleAPIError"; "Exception"; "BaseException"]
               ("Not found: Table " +:+ name).

(** Collaborators that answer with the sample report and take every row. *)
Definition accepting_services : services :=
  Services (fun _ => Ok sample_report) (Ok tt) not_found (fun _ _ => Ok []).

Definition sample_row_error : row_error :=
  "{'index': 0, 'errors': [{'reason': 'invalid'}]}".

(** Collaborators whose table rejects the row. *)
Definition rejecting_services : services :=
  Services (fun _ => Ok sample_report) (Ok tt) not_found
           (fun _ _ => Ok [sample_row_error]).

(** Collaborators whose audit service is unavailable. *)
Definition unavailable_services : services :=
  Services (fun _ => Raise (HttpError 503 "Service Unavailable")) (Ok tt)
           not_found (fun _ _ => Ok []).

(** The sample process once the sample report has been extracted: the row
    is the dict at location 4. *)
Definition extracted_world : world :=
  snd (extract_audits sample_report sample_world).

(** A timestamp with month, day and fraction written short. *)
Definition short_stamp : string := "2022-5-1T12:34:56.7Z".

Definition short_world : world := sample_world_of short_stamp (keys audits).

(** A report whose timestamp is no timestamp. *)
Definition bad_stamp_world : world := sample_world_of "yesterday" (keys audits).

(** ** Further notions: the row, the calendar, written timestamps *)

(** The keys of a row, in the order [extract_audits] writes them. *)
Definition row_keys : list string := "date" :: "url" :: map snd audits.

(** What the [datetime] constructor accepts. *)
Definition valid_datetime (dt : datetime) : bool :=
  between 1 (year dt) 9999
  && between 1 (month dt) 12
  && between 1 (day dt) (days_in_month (year dt) (month dt))
  && between 0 (hour dt) 23
  && between 0 (minute dt) 59
  && between 0 (second dt) 59
  && between 0 (microsecond dt) 999999.

(** The handler's [except] clause. *)
Definition handled (e : exn) : bool :=
  isinstance e "ValueError" || isinstance e "RuntimeError".

(** A process without [GOOGLE_CLOUD_PROJECT]. *)
Definition no_project_world : world :=
  World (sample_heap_of sample_stamp (keys audits))
        (<["BIGQUERY_TABLE" := "psi.audits"]> ∅) [] sample_tables.

(** A process without [BIGQUERY_TABLE]. *)
Definition no_table_name_world : world :=
  World (sample_heap_of sample_stamp (keys audits))
        (<["GOOGLE_CLOUD_PROJECT" := "proj"]> ∅) [] sample_tables.

(** Collaborators whose audit service times out. *)
Definition timeout_services : services :=
  Services (fun _ => Raise (ForeignError
                              ["TimeoutError"; "OSError"; "Exception";
                               "BaseException"] "timed out"))
           (Ok tt) not_found (fun _ _ => Ok []).

(** The keys of a dict after [d[k] = v]. *)
Definition add_key (ks : list string) (k : string) : list string :=
  if existsb (String.eqb k) ks then ks else ks ++ [k].

(** The keys of the row after the loop has run over [ids]. *)
Definition loop_keys (ks : list string) (ids : list string) : list string :=
  fold_left (fun ks a => match dict_get a audits with
                         | Some col => add_key ks col
                         | None => ks
                         end) ids ks.

(** The sample report with fields [extract_audits] does not read: more
    keys at every level, and an audit outside the thirteen. *)
Definition verbose_heap : list obj :=
  [ ODict [("captchaResult", VStr "CAPTCHA_NOT_NEEDED");
           ("analysisUTCTimestamp", VStr sample_stamp);
           ("lighthouseResult", VRef 1); ("id", VStr "https://example.com/")];
    ODict [("requestedUrl", VStr "https://example.com");
           ("finalUrl", VStr "https://example.com/");
           ("audits", VRef 2); ("timing", VRef 4)];
    ODict (("bootup-time", VRef 3) :: map (fun a => (a, VRef 3)) (keys audits));
    ODict [("score", VInt 1); ("numericValue", sample_numeric);
           ("displayValue", VStr "0.5 s")];
    ODict [("total", VInt 9000)] ].

Definition verbose_world : world :=
  World verbose_heap sample_environ [] sample_tables.

Definition is_text (v : val) : bool :=
  match v with VStr _ => true | _ => false end.

(** A report whose timestamp is a number. *)
Definition numeric_stamp_world : world :=
  World [ ODict [("analysisUTCTimestamp", VInt 1651408496);
                 ("lighthouseResult", VRef 1)];
          ODict [("finalUrl", VStr "https://example.com/")] ]
        sample_environ [] sample_tables.

(** The decimal digit of the units of [n]. *)
Definition digit_char (n : Z) : ascii :=
  ascii_of_N (Z.to_N (48 + n mod 10)).

Definition two_digits (n : Z) : string :=
  String (digit_char (n / 10)) (String (digit_char n) "").

Definition four_digits (n : Z) : string :=
  String (digit_char (n / 1000)) (String (digit_char (n / 100)) (two_digits n)).

Definition six_digits (n : Z) : string :=
  String (digit_char (n / 100000))
    (String (digit_char (n / 10000)) (four_digits n)).

(** A timestamp written in full, every field padded with zeros: the form
    [YYYY-MM-DDTHH:MM:SS.ffffffZ]. *)
Definition written_stamp (dt : datetime) : string :=
  four_digits (year dt) +:+ String "-"
 (two_digits (month dt) +:+ String "-"
 (two_digits (day dt) +:+ String "T"
 (two_digits (hour dt) +:+ String ":"
 (two_digits (minute dt) +:+ String ":"
 (two_digits (second dt) +:+ String "."
 (six_digits (microsecond dt) +:+ String "Z" "")))))).

(** * The model at work *)

Example strptime_sample :
  strptime_str sample_stamp timestamp_format = Ok sample_date.
Proof. vm_compute. reflexivity. Qed.

Example strptime_short :
  strptime_str short_stamp timestamp_format
  = Ok (Datetime 2022 5 1 12 34 56 700000).
Proof. vm_compute. reflexivity. Qed.

Example strptime_lower_case :
  strptime_str "2022-05-01t12:34:56.789012z" timestamp_format = Ok sample_date.
Proof. vm_compute. reflexivity. Qed.

Example strptime_seven_digits :
  strptime_str "2022-05-01T12:34:56.7890123Z" timestamp_format
  = Raise (ValueError "time data does not match format").
Proof. vm_compute. reflexivity. Qed.

Example strptime_trailing_blank :
  strptime_str "2022-05-01T12:34:56.789012Z " timestamp_format
  = Raise (ValueError "unconverted data remains").
Proof. vm_compute. reflexivity. Qed.

Example strptime_february_30 :
  strptime_str "2022-02-30T12:34:56.789012Z" timestamp_format
  = Raise (ValueError "day is out of range for month").
Proof. vm_compute. reflexivity. Qed.

Example strptime_second_60 :
  strptime_str "2022-05-01T12:34:60.789012Z" timestamp_format
  = Raise (ValueError "second must be in 0..59").
Proof. vm_compute. reflexivity. Qed.

Example extract_sample_returns_row :
  fst (extract_audits sample_report sample_world) = Ok (VRef 4).
Proof. vm_compute. reflexivity. Qed.

Example extract_partial_raises :
  fst (extract_audits sample_report partial_world)
  = Raise (KeyError "interactive").
Proof. vm_compute. reflexivity. Qed.

Example extract_none_raises :
  fst (extract_audits VNone sample_world)
  = Raise (TypeError "'NoneType' object is not subscriptable").
Proof. vm_compute. reflexivity. Qed.

Example submit_sample_success :
  fst (submit_test accepting_services sample_request sample_world)
  = Ok (render_template "index.html" (Some "success")).
Proof. vm_compute. reflexivity. Qed.

Example submit_sample_stored :
  tables (snd (submit_test accepting_services sample_request sample_world))
    !! "proj.psi.audits"
  = Some [("date", VDatetime sample_date)
          :: ("url", VStr "https://example.com/")
          :: map (fun ac => (snd ac, sample_numeric)) audits].
Proof. vm_compute. reflexivity. Qed.

Example submit_rejected_failure :
  fst (submit_test rejecting_services sample_request sample_world)
  = Ok (render_template "index.html" (Some "failure")).
Proof. vm_compute. reflexivity. Qed.

Example submit_unavailable_raises :
  fst (submit_test unavailable_services sample_request sample_world)
  = Raise (TypeError "'NoneType' object is not subscriptable").
Proof. vm_compute. reflexivity. Qed.

(** * Properties *)

(** ** The store under extension *)

Lemma set_heap_set_heap w h1 h2 : set_heap (set_heap w h1) h2 = set_heap w h2.
Proof. reflexivity. Qed.

Lemma subscript_ext h ext v k x :
  subscript h v k = Ok x -> subscript (h ++ ext) v k = Ok x.
Proof.
  destruct v; simpl; try discriminate.
  destruct (h !! l) as [o|] eqn:Hl; [|discriminate].
  rewrite (lookup_app_l_Some _ _ _ _ Hl). auto.
Qed.

Lemma resolve_ext h ext path : forall v x,
  resolve h v path = Ok x -> resolve (h ++ ext) v path = Ok x.
Proof.
  induction path as [|k path IH]; simpl; intros v x H; [exact H|].
  destruct (subscript h v k) as [v'|e] eqn:Hs; [|discriminate].
  rewrite (subscript_ext _ ext _ _ _ Hs). auto.
Qed.

Lemma subscript_closed h ext v k :
  val_in h v = true -> subscript (h ++ ext) v k = subscript h v k.
Proof.
  destruct v; simpl; try reflexivity.
  intros H. apply Nat.ltb_lt in H. rewrite lookup_app_l by exact H. reflexivity.
Qed.

Lemma dict_get_In {A} k (d : list (string * A)) v :
  dict_get k d = Some v -> In (k, v) d.
Proof.
  induction d as [|[k' v'] d IH]; simpl; [discriminate|].
  destruct (String.eqb k k') eqn:E.
  - apply String.eqb_eq in E. subst. intros [= ->]. now left.
  - intros H. right. auto.
Qed.

Lemma subscript_val_in h v k x :
  closed h = true -> subscript h v k = Ok x -> val_in h x = true.
Proof.
  intros Hc. destruct v; simpl; try discriminate.
  destruct (h !! l) as [[d|xs]|] eqn:Hl; try discriminate.
  destruct (dict_get k d) as [y|] eqn:Hk; [|discriminate].
  intros [= <-].
  unfold closed in Hc. rewrite forallb_forall in Hc.
  assert (Ho : obj_closed h (ODict d) = true).
  { apply Hc. apply list_elem_of_In. eapply list_elem_of_lookup_2. exact Hl. }
  simpl in Ho. rewrite forallb_forall in Ho.
  apply (Ho (k, y)). apply dict_get_In. exact Hk.
Qed.

Lemma resolve_closed h ext path : forall v,
  closed h = true -> val_in h v = true ->
  resolve (h ++ ext) v path = resolve h v path.
Proof.
  induction path as [|k path IH]; simpl; intros v Hc Hv; [reflexivity|].
  rewrite subscript_closed by exact Hv.
  destruct (subscript h v k) as [v'|e] eqn:Hs; [|reflexivity].
  apply IH; [exact Hc|]. eapply subscript_val_in; eauto.
Qed.



(** ** The new dict is the last object of the store *)

Lemma lookup_last (h : list obj) (o : obj) : (h ++ [o]) !! length h = Some o.
Proof. apply list_lookup_middle. reflexivity. Qed.

Lemma insert_last (h : list obj) (o o' : obj) :
  <[length h := o']> (h ++ [o]) = h ++ [o'].
Proof.
  rewrite insert_app_r_alt by lia. rewrite Nat.sub_diag. reflexivity.
Qed.

Lemma setitem_last w h row k v :
  setitem (VRef (length h)) k v (set_heap w (h ++ [ODict row]))
  = (Ok tt, set_heap w (h ++ [ODict (dict_set k v row)])).
Proof.
  unfold setitem. simpl. rewrite lookup_last, insert_last. reflexivity.
Qed.

(** One turn of the loop, by what the store holds. *)
Lemma extract_one_eq psi a w h row :
  extract_one psi (VRef (length h)) a (set_heap w (h ++ [ODict row]))
  = match resolve (h ++ [ODict row]) psi (metric_path a) with
    | Raise e => (Raise e, set_heap w (h ++ [ODict row]))
    | Ok v =>
        match dict_get a audits with
        | None => (Raise (KeyError a), set_heap w (h ++ [ODict row]))
        | Some col => (Ok tt, set_heap w (h ++ [ODict (dict_set col v row)]))
        end
    end.
Proof.
  unfold extract_one, bind, getitem, metric_path. cbn [resolve heap set_heap].
  set (hh := h ++ [ODict row]).
  destruct (subscript hh psi "lighthouseResult") as [v1|e]; [|reflexivity].
  destruct (subscript hh v1 "audits") as [v2|e]; [|reflexivity].
  destruct (subscript hh v2 a) as [v3|e]; [|reflexivity].
  destruct (subscript hh v3 "numericValue") as [v4|e]; [|reflexivity].
  unfold const_getitem.
  destruct (dict_get a audits) as [col|]; [|reflexivity].
  unfold ret. subst hh. apply setitem_last.
Qed.

Lemma for_each_extract_ok psi w h : forall ids row cells,
  metric_cells h psi ids = Ok cells ->
  for_each ids (extract_one psi (VRef (length h)))
    (set_heap w (h ++ [ODict row]))
  = (Ok tt, set_heap w (h ++ [ODict (fold_left set_cell cells row)])).
Proof.
  induction ids as [|a ids IH]; cbn [metric_cells for_each]; intros row cells H.
  - injection H as <-. reflexivity.
  - destruct (resolve h psi (metric_path a)) as [v|e] eqn:Hr; [|discriminate].
    destruct (dict_get a audits) as [col|] eqn:Hc; [|discriminate].
    destruct (metric_cells h psi ids) as [cs|e] eqn:Hm; [|discriminate].
    injection H as <-.
    unfold bind at 1. rewrite extract_one_eq.
    rewrite (resolve_ext _ [ODict row] _ _ _ Hr), Hc.
    rewrite (IH _ cs eq_refl). reflexivity.
Qed.

Lemma for_each_extract_raise psi w h : forall ids row e,
  closed h = true -> val_in h psi = true ->
  metric_cells h psi ids = Raise e ->
  exists row',
    for_each ids (extract_one psi (VRef (length h)))
      (set_heap w (h ++ [ODict row]))
    = (Raise e, set_heap w (h ++ [ODict row'])).
Proof.
  induction ids as [|a ids IH]; cbn [metric_cells for_each];
    intros row e Hc Hv H; [discriminate|].
  unfold bind at 1. rewrite extract_one_eq.
  rewrite resolve_closed by assumption.
  destruct (resolve h psi (metric_path a)) as [v|e'] eqn:Hr.
  - destruct (dict_get a audits) as [col|] eqn:Hcol.
    + destruct (metric_cells h psi ids) as [cs|e'] eqn:Hm; [discriminate|].
      injection H as <-. apply IH; auto.
    + injection H as <-. eauto.
  - injection H as <-. eauto.
Qed.

Lemma for_each_extract_frame psi w h : forall ids row,
  exists row',
    snd (for_each ids (extract_one psi (VRef (length h)))
           (set_heap w (h ++ [ODict row])))
    = set_heap w (h ++ [ODict row']).
Proof.
  induction ids as [|a ids IH]; cbn [for_each]; intros row; [simpl; eauto|].
  unfold bind at 1. rewrite extract_one_eq.
  destruct (resolve (h ++ [ODict row]) psi (metric_path a)) as [v|e]; [|eauto].
  destruct (dict_get a audits) as [col|]; [|eauto].
  apply IH.
Qed.

(** ** [extract_audits] and the row it builds *)

Lemma extract_audits_ok psi w d :
  extract_row (heap w) psi = Ok d ->
  extract_audits psi w
  = (Ok (VRef (length (heap w))), set_heap w (heap w ++ [ODict d])).
Proof.
  unfold extract_row, timestamp_path, url_path. cbn [resolve].
  set (h := heap w).
  destruct (subscript h psi "analysisUTCTimestamp") as [stamp|e] eqn:H1;
    [|discriminate].
  destruct (parse_stamp stamp) as [date|e] eqn:H2; [|discriminate].
  destruct (subscript h psi "lighthouseResult") as [lh|e] eqn:H3;
    [|discriminate].
  destruct (subscript h lh "finalUrl") as [u|e] eqn:H4; [|discriminate].
  destruct (metric_cells h psi (keys audits)) as [cells|e] eqn:H5;
    [|discriminate].
  intros [= <-].
  unfold extract_audits, bind, new_dict, getitem. fold h.
  cbn [heap set_heap].
  rewrite (subscript_ext _ [ODict []] _ _ _ H1).
  assert (Hp : strptime stamp timestamp_format (set_heap w (h ++ [ODict []]))
               = (Ok date, set_heap w (h ++ [ODict []]))).
  { unfold strptime, parse_stamp in *. destruct stamp; try discriminate.
    destruct (strptime_str s timestamp_format); [|discriminate].
    injection H2 as <-. reflexivity. }
  rewrite Hp, setitem_last. cbn [heap set_heap].
  rewrite (subscript_ext _ [ODict _] _ _ _ H3).
  rewrite (subscript_ext _ [ODict _] _ _ _ H4).
  rewrite setitem_last.
  rewrite (for_each_extract_ok _ _ _ _ _ _ H5). reflexivity.
Qed.


Lemma strptime_eq stamp w :
  strptime stamp timestamp_format w
  = match parse_stamp stamp with
    | Ok date => (Ok date, w)
    | Raise e => (Raise e, w)
    end.
Proof.
  unfold strptime, parse_stamp. destruct stamp; try reflexivity.
  destruct (strptime_str s timestamp_format); reflexivity.
Qed.

Lemma extract_audits_raise psi w e :
  closed (heap w) = true -> val_in (heap w) psi = true ->
  extract_row (heap w) psi = Raise e ->
  exists d,
    extract_audits psi w = (Raise e, set_heap w (heap w ++ [ODict d])).
Proof.
  intros Hc Hv.
  unfold extract_row, extract_audits, bind, new_dict, getitem.
  set (h := heap w) in *. cbn [heap set_heap].
  assert (R : forall ext path, resolve (h ++ ext) psi path = resolve h psi path)
    by (intros; apply resolve_closed; assumption).
  assert (S1 : forall ext k, subscript (h ++ ext) psi k = subscript h psi k)
    by (intros; apply subscript_closed; assumption).
  unfold timestamp_path, url_path. cbn [resolve].
  rewrite S1.
  destruct (subscript h psi "analysisUTCTimestamp") as [stamp|e1];
    [|intros [= <-]; eauto].
  rewrite strptime_eq.
  destruct (parse_stamp stamp) as [date|e1]; [|intros [= <-]; eauto].
  rewrite setitem_last. cbn [heap set_heap]. rewrite S1.
  destruct (subscript h psi "lighthouseResult") as [lh|e1] eqn:H3;
    [|intros [= <-]; eauto].
  rewrite subscript_closed by (eapply subscript_val_in; eauto).
  destruct (subscript h lh "finalUrl") as [u|e1]; [|intros [= <-]; eauto].
  rewrite setitem_last.
  change (dict_set "url" u (dict_set "date" date []))
    with [("date", date); ("url", u)].
  destruct (metric_cells h psi (keys audits)) as [cells|e1] eqn:H5;
    [discriminate|].
  intros [= <-].
  destruct (for_each_extract_raise psi w h (keys audits)
              [("date", date); ("url", u)] e1 Hc Hv H5) as [row' Hrow].
  rewrite Hrow. eauto.
Qed.

(** Whatever it is given, [extract_audits] only adds one dict to the store
    and, when it returns, returns that dict. *)
Lemma extract_audits_frame psi w :
  exists d,
    snd (extract_audits psi w) = set_heap w (heap w ++ [ODict d])
    /\ forall v, fst (extract_audits psi w) = Ok v -> v = VRef (length (heap w)).
Proof.
  unfold extract_audits, bind, new_dict, getitem.
  set (h := heap w). cbn [heap set_heap].
  destruct (subscript (h ++ [ODict []]) psi "analysisUTCTimestamp")
    as [stamp|e1]; [|simpl; eexists; split; [reflexivity|discriminate]].
  rewrite strptime_eq.
  destruct (parse_stamp stamp) as [date|e1];
    [|simpl; eexists; split; [reflexivity|discriminate]].
  rewrite setitem_last. cbn [heap set_heap].
  destruct (subscript (h ++ [ODict _]) psi "lighthouseResult") as [lh|e1];
    [|simpl; eexists; split; [reflexivity|discriminate]].
  destruct (subscript (h ++ [ODict _]) lh "finalUrl") as [u|e1];
    [|simpl; eexists; split; [reflexivity|discriminate]].
  rewrite setitem_last.
  change (dict_set "url" u (dict_set "date" date []))
    with [("date", date); ("url", u)].
  destruct (for_each_extract_frame psi w h (keys audits)
              [("date", date); ("url", u)]) as [row' Hrow].
  destruct (for_each _ _ _) as [[[]|e1] w'] eqn:Hf; simpl in Hrow; subst w';
    simpl; eexists; (split; [reflexivity|]).
  - intros v [= <-]. reflexivity.
  - discriminate.
Qed.




Ltac in_list := simpl; repeat first [left; reflexivity | right]; fail.

(** The row of a complete report, cell by cell. *)
Lemma extract_row_complete h psi s dt u (nv : string -> val) :
  resolve h psi timestamp_path = Ok (VStr s) ->
  strptime_str s timestamp_format = Ok dt ->
  resolve h psi url_path = Ok u ->
  (forall a, In a (keys audits) -> resolve h psi (metric_path a) = Ok (nv a)) ->
  extract_row h psi
  = Ok (("date", VDatetime dt) :: ("url", u)
        :: map (fun ac => (snd ac, nv (fst ac))) audits).
Proof.
  intros H1 H2 H3 H4. unfold extract_row, parse_stamp.
  rewrite H1, H2, H3.
  cbn [metric_cells keys map audits fst].
  repeat (rewrite H4 by in_list;
          match goal with
          | |- context [dict_get ?a audits] =>
              let r := eval vm_compute in (dict_get a audits) in
              change (dict_get a audits) with r; cbv iota
          end).
  reflexivity.
Qed.

(** C1: a report that holds a parseable timestamp, a final URL and a
    numeric value for each of the thirteen metric identifiers yields a row
    of exactly fifteen keys, ['date'], ['url'] and the thirteen names
    written with underscores; ['url'] is the final URL and each metric,
    under its identifier with every hyphen turned into an underscore, is
    the report's numeric value of that identifier itself. *)
Theorem extract_audits_complete_row psi w s dt u (nv : string -> val) :
  resolve (heap w) psi timestamp_path = Ok (VStr s) ->
  strptime_str s timestamp_format = Ok dt ->
  resolve (heap w) psi url_path = Ok u ->
  (forall a, In a metric_ids ->
             resolve (heap w) psi (metric_path a) = Ok (nv a)) ->
  exists d,
    extract_audits psi w
    = (Ok (VRef (length (heap w))), set_heap w (heap w ++ [ODict d]))
    /\ keys d
       = [ "date"; "url"; "speed_index"; "first_contentful_paint";
          "first_meaningful_paint"; "server_response_time";
          "network_server_latency"; "cumulative_layout_shift";
          "interactive"; "largest_contentful_paint"; "total_blocking_time";
          "first_cpu_idle"; "max_potential_fid"; "total_byte_weight";
          "estimated_input_latency" ]
    /\ length d = 15%nat
    /\ NoDup (keys d)
    /\ dict_get "date" d = Some (VDatetime dt)
    /\ dict_get "url" d = Some u
    /\ forall a, In a metric_ids -> dict_get (underscored a) d = Some (nv a).
Proof.
  intros H1 H2 H3 H4.
  pose proof (extract_row_complete _ _ _ _ _ _ H1 H2 H3 H4) as Hrow.
  eexists. split; [apply extract_audits_ok; exact Hrow|].
  repeat split; try reflexivity.
  - apply NoDup_ListNoDup. simpl.
    repeat (constructor; [simpl; intuition discriminate|]). constructor.
  - intros a Hin. simpl in Hin.
    repeat (destruct Hin as [<-|Hin]; [reflexivity|]). destruct Hin.
Qed.

Lemma extract_audits_complete_row_witness :
  exists d,
    extract_audits sample_report graded_world
    = (Ok (VRef 16), set_heap graded_world (heap graded_world ++ [ODict d]))
    /\ keys d
       = [ "date"; "url"; "speed_index"; "first_contentful_paint";
          "first_meaningful_paint"; "server_response_time";
          "network_server_latency"; "cumulative_layout_shift";
          "interactive"; "largest_contentful_paint"; "total_blocking_time";
          "first_cpu_idle"; "max_potential_fid"; "total_byte_weight";
          "estimated_input_latency" ]
    /\ length d = 15%nat
    /\ NoDup (keys d)
    /\ dict_get "date" d = Some (VDatetime sample_date)
    /\ dict_get "url" d = Some (VStr "https://example.com/")
    /\ forall a, In a metric_ids ->
                 dict_get (underscored a) d = Some (graded_value a).
Proof.
  apply (extract_audits_complete_row sample_report graded_world sample_stamp
           sample_date (VStr "https://example.com/") graded_value).
  - reflexivity.
  - vm_compute. reflexivity.
  - reflexivity.
  - intros a Hin. simpl in Hin.
    repeat (destruct Hin as [<-|Hin]; [reflexivity|]). destruct Hin.
Defined.



(** C10: [extract_audits] does not write to its input.  Every object the
    store held before the call, the report and all it refers to, is the
    same after the call, whether it returns or raises; the environment,
    the log and the tables are untouched; the row returned is a dict at a
    location that was free before the call. *)
Theorem extract_audits_input_unchanged psi w :
  (forall l o, heap w !! l = Some o ->
               heap (snd (extract_audits psi w)) !! l = Some o)
  /\ (forall path v, resolve (heap w) psi path = Ok v ->
                     resolve (heap (snd (extract_audits psi w))) psi path = Ok v)
  /\ length (heap (snd (extract_audits psi w))) = S (length (heap w))
  /\ environ (snd (extract_audits psi w)) = environ w
  /\ log (snd (extract_audits psi w)) = log w
  /\ tables (snd (extract_audits psi w)) = tables w
  /\ (forall v, fst (extract_audits psi w) = Ok v ->
                v = VRef (length (heap w))
                /\ heap w !! length (heap w) = None
                /\ exists d, heap (snd (extract_audits psi w))
                               !! length (heap w) = Some (ODict d)).
Proof.
  destruct (extract_audits_frame psi w) as (d & Hw & Hv).
  rewrite Hw. cbn [heap environ log tables set_heap].
  repeat split.
  - intros l o Hl. apply lookup_app_l_Some. exact Hl.
  - intros path v Hr. apply resolve_ext. exact Hr.
  - rewrite length_app. simpl. lia.
  - apply Hv. assumption.
  - apply lookup_ge_None. lia.
  - exists d. apply lookup_last.
Qed.

(** ** Text of the write error *)

Lemma append_cons x (a b : string) : String x a +:+ b = String x (a +:+ b).
Proof. reflexivity. Qed.

Lemma append_nil_l (a : string) : "" +:+ a = a.
Proof. reflexivity. Qed.

Lemma append_assoc (a b c : string) : (a +:+ b) +:+ c = a +:+ (b +:+ c).
Proof.
  induction a as [|x a IH]; [reflexivity|].
  rewrite !append_cons. f_equal. exact IH.
Qed.

Lemma append_nil_r (a : string) : a +:+ "" = a.
Proof.
  induction a as [|x a IH]; [reflexivity|].
  rewrite append_cons. f_equal. exact IH.
Qed.

Lemma occurs_in_refl s : occurs_in s s.
Proof. exists "", "". now rewrite append_nil_l, append_nil_r. Qed.

Lemma occurs_in_app_l s t p : occurs_in s t -> occurs_in s (p +:+ t).
Proof.
  intros (pre & post & ->). exists (p +:+ pre), post.
  now rewrite append_assoc.
Qed.

Lemma occurs_in_app_r s t p : occurs_in s t -> occurs_in s (t +:+ p).
Proof.
  intros (pre & post & ->). exists pre, (post +:+ p).
  now rewrite !append_assoc.
Qed.

Lemma occurs_in_join sep : forall xs x, In x xs -> occurs_in x (join sep xs).
Proof.
  induction xs as [|y xs IH]; intros x Hin; [destruct Hin|].
  destruct xs as [|z xs].
  - destruct Hin as [->|[]]. apply occurs_in_refl.
  - change (join sep (y :: z :: xs)) with (y +:+ sep +:+ join sep (z :: xs)).
    destruct Hin as [->|Hin].
    + apply occurs_in_app_r, occurs_in_refl.
    + apply occurs_in_app_l, occurs_in_app_l, IH, Hin.
Qed.

Lemma occurs_in_write_error errs x :
  In x errs -> occurs_in x (write_error_message errs).
Proof.
  intros Hin. unfold write_error_message, list_str.
  apply occurs_in_app_l, occurs_in_app_r, occurs_in_app_l, occurs_in_app_r.
  apply occurs_in_join, Hin.
Qed.

(** ** [insert_audits] once the batch is answered *)

Lemma insert_audits_eq svc table row w project rows d errs :
  bq_client svc = Ok tt ->
  environ w !! "GOOGLE_CLOUD_PROJECT" = Some project ->
  tables w !! (project +:+ "." +:+ table) = Some rows ->
  row_dict (heap w) row = Some d ->
  bq_reply svc (project +:+ "." +:+ table) [d] = Ok errs ->
  insert_audits svc table row w
  = match errs with
    | [] =>
        (Ok tt,
         set_tables w
           (<[project +:+ "." +:+ table := rows ++ [d]]> (tables w)))
    | _ :: _ => (Raise (RuntimeError (write_error_message errs)), w)
    end.
Proof.
  intros Hb He Ht Hd Hr.
  unfold insert_audits, bind, bigquery_Client, os_environ_getitem, get_table,
    insert_rows.
  rewrite Hb, He, Ht. cbn [mapM]. rewrite Hd. cbn [mbind option_bind mret option_ret].
  rewrite Hr. destruct errs; [|reflexivity].
  cbv beta iota. rewrite Ht. reflexivity.
Qed.

(** A normal return of [insert_audits] means that the insert call was
    made, on the one row, and answered with an empty collection. *)
Lemma insert_audits_returns svc table row w :
  fst (insert_audits svc table row w) = Ok tt ->
  exists project d,
    environ w !! "GOOGLE_CLOUD_PROJECT" = Some project
    /\ row_dict (heap w) row = Some d
    /\ bq_reply svc (project +:+ "." +:+ table) [d] = Ok [].
Proof.
  unfold insert_audits, bind, bigquery_Client, os_environ_getitem, get_table,
    insert_rows.
  destruct (bq_client svc) as [[]|e]; [|discriminate].
  destruct (environ w !! "GOOGLE_CLOUD_PROJECT") as [project|]; [|discriminate].
  destruct (tables w !! (project +:+ "." +:+ table)) as [rows|]; [|discriminate].
  cbn [mapM]. destruct (row_dict (heap w) row) as [d|]; [|discriminate].
  cbn [mbind option_bind mret option_ret].
  destruct (bq_reply svc (project +:+ "." +:+ table) [d]) as [[|x errs]|e] eqn:E;
    [|discriminate..].
  intros _. eauto.
Qed.

(** C4: once the single-row insert call has answered, [insert_audits]
    raises exactly when the answer holds a row error; the error is a
    [RuntimeError] whose text holds the whole collection, hence each
    rejection detail; with an empty collection it returns normally.  In
    no run does it return normally without an empty answer of the insert
    call. *)
Theorem insert_audits_raises_iff_rejected svc table row w project d errs :
  bq_client svc = Ok tt ->
  environ w !! "GOOGLE_CLOUD_PROJECT" = Some project ->
  is_Some (tables w !! (project +:+ "." +:+ table)) ->
  row_dict (heap w) row = Some d ->
  bq_reply svc (project +:+ "." +:+ table) [d] = Ok errs ->
  ((exists e, fst (insert_audits svc table row w) = Raise e) <-> errs <> [])
  /\ (errs = [] -> fst (insert_audits svc table row w) = Ok tt)
  /\ (errs <> [] ->
      fst (insert_audits svc table row w)
      = Raise (RuntimeError
                 ("Failed to write all rows to bigquery: "
                    +:+ list_str errs +:+ "."))
      /\ forall x, In x errs ->
           occurs_in x ("Failed to write all rows to bigquery: "
                          +:+ list_str errs +:+ "."))
  /\ (forall svc' table' row' w',
        fst (insert_audits svc' table' row' w') = Ok tt ->
        exists project' d',
          environ w' !! "GOOGLE_CLOUD_PROJECT" = Some project'
          /\ row_dict (heap w') row' = Some d'
          /\ bq_reply svc' (project' +:+ "." +:+ table') [d'] = Ok []).
Proof.
  intros Hb He [rows Ht] Hd Hr.
  rewrite (insert_audits_eq _ _ _ _ _ _ _ _ Hb He Ht Hd Hr).
  destruct errs as [|x errs]; simpl fst.
  - repeat split; try congruence; try apply insert_audits_returns.
    intros [e H]. discriminate.
  - repeat split; try congruence; try discriminate;
      try apply insert_audits_returns.
    + eauto.
    + intros y Hy. apply (occurs_in_write_error (x :: errs) y Hy).
Qed.

Lemma insert_audits_raises_iff_rejected_witness :
  ((exists e, fst (insert_audits rejecting_services "psi.audits" (VRef 4)
                     extracted_world) = Raise e)
   <-> [sample_row_error] <> [])
  /\ ([sample_row_error] = [] ->
      fst (insert_audits rejecting_services "psi.audits" (VRef 4)
             extracted_world) = Ok tt)
  /\ ([sample_row_error] <> [] ->
      fst (insert_audits rejecting_services "psi.audits" (VRef 4)
             extracted_world)
      = Raise (RuntimeError
                 ("Failed to write all rows to bigquery: "
                    +:+ list_str [sample_row_error] +:+ "."))
      /\ forall x, In x [sample_row_error] ->
           occurs_in x ("Failed to write all rows to bigquery: "
                          +:+ list_str [sample_row_error] +:+ ".")).
Proof.
  refine (let H := insert_audits_raises_iff_rejected rejecting_services
                     "psi.audits" (VRef 4) extracted_world "proj" _
                     [sample_row_error] _ _ _ _ _ in
          conj (proj1 H) (conj (proj1 (proj2 H)) (proj1 (proj2 (proj2 H))))).
  - reflexivity.
  - reflexivity.
  - eexists. vm_compute. reflexivity.
  - vm_compute. reflexivity.
  - reflexivity.
Defined.

(** ** [get_psi_audit] *)

Lemma get_psi_audit_eq svc url w :
  get_psi_audit svc url w
  = match psi_reply svc (audit_request url) with
    | Ok psi => (Ok psi, w)
    | Raise he =>
        if isinstance he "HttpError"
        then (Ok VNone,
              add_log w
                (LogRecord ("PSI Error " +:+ format_d (status_code_of he)
                              +:+ ": " +:+ error_details_of he) he))
        else (Raise he, w)
    end.
Proof.
  unfold get_psi_audit, try_except, audit_request.
  destruct (psi_reply svc _) as [psi|he]; [reflexivity|].
  destruct (isinstance he "HttpError"); reflexivity.
Qed.

(** C5: when the remote audit call raises an HTTP error, [get_psi_audit]
    sends one record to the log, with the status code and the error detail
    of the failure, and returns [None]; for no URL and no answer of the
    service does it let an HTTP error reach its caller. *)
Theorem get_psi_audit_http_error svc url w code details :
  psi_reply svc (PsiRequest url "PERFORMANCE" "MOBILE")
  = Raise (HttpError code details) ->
  get_psi_audit svc url w
  = (Ok VNone,
     add_log w
       (LogRecord ("PSI Error " +:+ format_d code +:+ ": " +:+ details)
                  (HttpError code details)))
  /\ (forall svc' url' w' e,
        fst (get_psi_audit svc' url' w') = Raise e ->
        isinstance e "HttpError" = false).
Proof.
  intros Hr. split.
  - rewrite get_psi_audit_eq. unfold audit_request. rewrite Hr. reflexivity.
  - intros svc' url' w' e. rewrite get_psi_audit_eq.
    destruct (psi_reply svc' _) as [psi|he']; [discriminate|].
    destruct (isinstance he' "HttpError") eqn:E; [discriminate|].
    intros [= <-]. exact E.
Qed.

Lemma get_psi_audit_http_error_witness :
  get_psi_audit unavailable_services "https://example.com" sample_world
  = (Ok VNone,
     add_log sample_world
       (LogRecord "PSI Error 503: Service Unavailable"
                  (HttpError 503 "Service Unavailable"))).
Proof.
  apply (get_psi_audit_http_error unavailable_services "https://example.com"
           sample_world 503 "Service Unavailable").
  reflexivity.
Defined.

(** ** [submit_test], stage by stage *)

Lemma submit_test_eq svc req w :
  submit_test svc req w
  = match form req !! "test_url" with
    | None => (Raise (BadRequestKeyError "test_url"), w)
    | Some url =>
        match get_psi_audit svc url w with
        | (Raise e, w1) => (Raise e, w1)
        | (Ok psi, w1) =>
            match extract_audits psi w1 with
            | (Raise e, w2) => (Raise e, w2)
            | (Ok row, w2) =>
                match environ w2 !! "BIGQUERY_TABLE" with
                | None => (Raise (KeyError "BIGQUERY_TABLE"), w2)
                | Some table =>
                    match insert_audits svc table row w2 with
                    | (Ok _, w3) =>
                        (Ok (render_template "index.html" (Some "success")), w3)
                    | (Raise e, w3) =>
                        if isinstance e "ValueError"
                           || isinstance e "RuntimeError"
                        then (Ok (render_template "index.html" (Some "failure")),
                              add_log w3 (LogRecord (exn_str e) e))
                        else (Raise e, w3)
                    end
                end
            end
        end
    end.
Proof.
  unfold submit_test, form_getitem.
  destruct (form req !! "test_url") as [url|]; [|reflexivity].
  unfold bind at 1. unfold ret at 1.
  unfold bind at 1.
  destruct (get_psi_audit svc url w) as [[psi|e] w1]; [|reflexivity].
  unfold bind at 1.
  destruct (extract_audits psi w1) as [[row|e] w2]; [|reflexivity].
  unfold bind at 1. unfold os_environ_getitem at 1.
  destruct (environ w2 !! "BIGQUERY_TABLE") as [table|]; [|reflexivity].
  unfold try_except, bind at 1.
  destruct (insert_audits svc table row w2) as [[[]|e] w3]; [reflexivity|].
  destruct (isinstance e "ValueError" || isinstance e "RuntimeError");
    reflexivity.
Qed.

Lemma complete_report_cells h psi : forall ids,
  (forall a, In a ids -> exists v, resolve h psi (metric_path a) = Ok v) ->
  (forall a, In a ids -> dict_get a audits <> None) ->
  exists cells, metric_cells h psi ids = Ok cells.
Proof.
  induction ids as [|a ids IH]; cbn [metric_cells]; intros Hv Hc; [eauto|].
  destruct (Hv a (or_introl eq_refl)) as [v ->].
  destruct (dict_get a audits) as [col|] eqn:E;
    [|destruct (Hc a (or_introl eq_refl) E)].
  destruct IH as [cells ->]; [intros; apply Hv; now right
                             |intros; apply Hc; now right|].
  eauto.
Qed.

Lemma complete_report_row h psi :
  complete_report h psi -> exists d, extract_row h psi = Ok d.
Proof.
  intros ((s & dt & H1 & H2) & (u & H3) & H4).
  unfold extract_row, parse_stamp. rewrite H1, H2, H3.
  destruct (complete_report_cells h psi (keys audits) H4) as [cells ->];
    [|eauto].
  intros a Hin. simpl in Hin.
  repeat (destruct Hin as [<-|Hin]; [discriminate|]). destruct Hin.
Qed.

Lemma row_dict_last h d : row_dict (h ++ [ODict d]) (VRef (length h)) = Some d.
Proof. unfold row_dict. now rewrite lookup_last. Qed.

Lemma submit_test_states svc req w r :
  fst (submit_test svc req w) = Ok r ->
  state r = Some "success" \/ state r = Some "failure".
Proof.
  rewrite submit_test_eq.
  destruct (form req !! "test_url"); [|discriminate].
  destruct (get_psi_audit svc _ w) as [[?|?] ?]; [|discriminate].
  destruct (extract_audits _ _) as [[?|?] ?]; [|discriminate].
  destruct (environ _ !! "BIGQUERY_TABLE"); [|discriminate].
  destruct (insert_audits svc _ _ _) as [[[]|e] ?].
  - intros [= <-]. now left.
  - destruct (isinstance e "ValueError" || isinstance e "RuntimeError");
      [|discriminate].
    intros [= <-]. now right.
Qed.

(** C6: on a POST with a URL, when the audit service answers with a
    complete report and the table takes the row, the handler renders
    ['success']; when instead the table answers with at least one row
    error, it renders ['failure'] and sends the error to the log.  No
    other state is ever rendered by the handler. *)
Theorem submit_test_success_or_failure svc req w url psi table project errs :
  form req !! "test_url" = Some url ->
  psi_reply svc (PsiRequest url "PERFORMANCE" "MOBILE") = Ok psi ->
  complete_report (heap w) psi ->
  environ w !! "BIGQUERY_TABLE" = Some table ->
  bq_client svc = Ok tt ->
  environ w !! "GOOGLE_CLOUD_PROJECT" = Some project ->
  is_Some (tables w !! (project +:+ "." +:+ table)) ->
  (forall rows, bq_reply svc (project +:+ "." +:+ table) rows = Ok errs) ->
  (errs = [] ->
   fst (submit_test svc req w)
   = Ok (render_template "index.html" (Some "success")))
  /\ (errs <> [] ->
      fst (submit_test svc req w)
      = Ok (render_template "index.html" (Some "failure"))
      /\ log (snd (submit_test svc req w))
         = log w ++ [LogRecord
                       ("Failed to write all rows to bigquery: "
                          +:+ list_str errs +:+ ".")
                       (RuntimeError
                          ("Failed to write all rows to bigquery: "
                             +:+ list_str errs +:+ "."))])
  /\ (forall svc' req' w' r,
        fst (submit_test svc' req' w') = Ok r ->
        state r = Some "success" \/ state r = Some "failure").
Proof.
  intros Hf Hp Hc Hb Hcl Hg [rows Ht] Hq.
  destruct (complete_report_row _ _ Hc) as [d Hd].
  assert (E : submit_test svc req w
              = match errs with
                | [] =>
                    (Ok (render_template "index.html" (Some "success")),
                     set_tables (set_heap w (heap w ++ [ODict d]))
                       (<[project +:+ "." +:+ table := rows ++ [d]]> (tables w)))
                | _ :: _ =>
                    (Ok (render_template "index.html" (Some "failure")),
                     add_log (set_heap w (heap w ++ [ODict d]))
                       (LogRecord (write_error_message errs)
                          (RuntimeError (write_error_message errs))))
                end).
  { rewrite submit_test_eq, Hf, get_psi_audit_eq. unfold audit_request.
    rewrite Hp, (extract_audits_ok _ _ _ Hd).
    cbn [environ set_heap]. rewrite Hb.
    rewrite (insert_audits_eq svc table _ _ project rows d errs);
      [|exact Hcl|exact Hg|exact Ht|apply row_dict_last|apply Hq].
    destruct errs; reflexivity. }
  repeat split.
  - intros ->. rewrite E. reflexivity.
  - rewrite E. destruct errs; [congruence|reflexivity].
  - rewrite E. destruct errs; [congruence|reflexivity].
  - apply submit_test_states.
Qed.

Lemma sample_report_complete : complete_report (heap sample_world) sample_report.
Proof.
  split; [|split].
  - exists sample_stamp, sample_date. split; [reflexivity|].
    vm_compute. reflexivity.
  - eexists. reflexivity.
  - intros a Hin. exists sample_numeric. simpl in Hin.
    repeat (destruct Hin as [<-|Hin]; [reflexivity|]). destruct Hin.
Defined.

Lemma submit_test_success_or_failure_witness :
  fst (submit_test accepting_services sample_request sample_world)
  = Ok (render_template "index.html" (Some "success")).
Proof.
  refine (proj1 (submit_test_success_or_failure accepting_services
                   sample_request sample_world "https://example.com"
                   sample_report "psi.audits" "proj" [] _ _ _ _ _ _ _ _) eq_refl).
  - reflexivity.
  - reflexivity.
  - exact sample_report_complete.
  - reflexivity.
  - reflexivity.
  - reflexivity.
  - eexists. vm_compute. reflexivity.
  - intros rows. reflexivity.
Defined.

(** C7: [insert_audits] addresses the table named by the project of the
    environment ([GOOGLE_CLOUD_PROJECT]), a dot and the given table name,
    and sends the row alone in its batch: after a row built by
    [extract_audits] is inserted, that table holds exactly one more row,
    whose fields are the fields of the row as it was built; no other table
    and no object of the store has changed. *)
Theorem insert_audits_appends_row svc psi table w w1 row project rows :
  extract_audits psi w = (Ok row, w1) ->
  bq_client svc = Ok tt ->
  environ w !! "GOOGLE_CLOUD_PROJECT" = Some project ->
  tables w !! (project +:+ "." +:+ table) = Some rows ->
  (forall ds, bq_reply svc (project +:+ "." +:+ table) ds = Ok []) ->
  exists d w2,
    row_dict (heap w1) row = Some d
    /\ insert_audits svc table row w1 = (Ok tt, w2)
    /\ tables w2 !! (project +:+ "." +:+ table) = Some (rows ++ [d])
    /\ (forall name, name <> project +:+ "." +:+ table ->
                     tables w2 !! name = tables w !! name)
    /\ heap w2 = heap w1
    /\ row_dict (heap w2) row = Some d.
Proof.
  intros Hx Hcl He Ht Hq.
  destruct (extract_audits_frame psi w) as (d & Hw & Hv).
  rewrite Hx in Hw, Hv. simpl in Hw. subst w1.
  rewrite (Hv row eq_refl).
  exists d. eexists. split; [apply row_dict_last|].
  split.
  - apply (insert_audits_eq svc table _ _ project rows d []);
      [exact Hcl|exact He|exact Ht|apply row_dict_last|apply Hq].
  - cbn [tables heap set_tables set_heap]. repeat split.
    + apply lookup_insert_eq.
    + intros name Hn. apply lookup_insert_ne. congruence.
    + apply row_dict_last.
Qed.

Lemma insert_audits_appends_row_witness :
  exists d w2,
    row_dict (heap extracted_world) (VRef 4) = Some d
    /\ insert_audits accepting_services "psi.audits" (VRef 4) extracted_world
       = (Ok tt, w2)
    /\ tables w2 !! ("proj" +:+ "." +:+ "psi.audits") = Some ([] ++ [d])
    /\ (forall name, name <> "proj" +:+ "." +:+ "psi.audits" ->
                     tables w2 !! name = tables sample_world !! name)
    /\ heap w2 = heap extracted_world
    /\ row_dict (heap w2) (VRef 4) = Some d.
Proof.
  apply (insert_audits_appends_row accepting_services sample_report
           "psi.audits" sample_world extracted_world (VRef 4) "proj" []).
  - vm_compute. reflexivity.
  - reflexivity.
  - reflexivity.
  - vm_compute. reflexivity.
  - intros ds. reflexivity.
Defined.

(** C9: the handler catches [ValueError] and [RuntimeError] only, and
    around the insert step only.  An exception raised by the extraction
    leaves the handler as it is, whatever its class; after a remote
    failure that [get_psi_audit] turned into [None], the extraction raises
    a [TypeError], which leaves the handler too; an exception of the insert
    step that is neither a [ValueError] nor a [RuntimeError] is not caught.
    In each case no state is rendered. *)
Theorem submit_test_extraction_errors_escape svc req w url :
  form req !! "test_url" = Some url ->
  (forall psi w1 e w2,
     get_psi_audit svc url w = (Ok psi, w1) ->
     extract_audits psi w1 = (Raise e, w2) ->
     submit_test svc req w = (Raise e, w2))
  /\ (forall code details,
        psi_reply svc (PsiRequest url "PERFORMANCE" "MOBILE")
        = Raise (HttpError code details) ->
        exists w',
          submit_test svc req w
          = (Raise (TypeError "'NoneType' object is not subscriptable"), w'))
  /\ (forall psi w1 row w2 table e w3,
        get_psi_audit svc url w = (Ok psi, w1) ->
        extract_audits psi w1 = (Ok row, w2) ->
        environ w2 !! "BIGQUERY_TABLE" = Some table ->
        insert_audits svc table row w2 = (Raise e, w3) ->
        isinstance e "ValueError" || isinstance e "RuntimeError" = false ->
        submit_test svc req w = (Raise e, w3)).
Proof.
  intros Hf. repeat split.
  - intros psi w1 e w2 Hg Hx. rewrite submit_test_eq, Hf, Hg, Hx. reflexivity.
  - intros code details Hr. rewrite submit_test_eq, Hf, get_psi_audit_eq.
    unfold audit_request. rewrite Hr. eexists. reflexivity.
  - intros psi w1 row w2 table e w3 Hg Hx Hb Hi Hc.
    rewrite submit_test_eq, Hf, Hg, Hx, Hb, Hi, Hc. reflexivity.
Qed.

Lemma submit_test_extraction_errors_escape_witness :
  exists w',
    submit_test unavailable_services sample_request sample_world
    = (Raise (TypeError "'NoneType' object is not subscriptable"), w').
Proof.
  refine (proj1 (proj2 (submit_test_extraction_errors_escape
                          unavailable_services sample_request sample_world
                          "https://example.com" _))
            503%Z "Service Unavailable" _);
    reflexivity.
Defined.

(** C3, as stated, fails: a report without its ["interactive"] audit makes
    the extraction raise a [KeyError], and the handler lets it out instead
    of rendering ['failure']. *)
Lemma submit_test_extraction_error_not_rendered :
  ~ (forall svc req w url psi w1 e w2,
       form req !! "test_url" = Some url ->
       get_psi_audit svc url w = (Ok psi, w1) ->
       extract_audits psi w1 = (Raise e, w2) ->
       fst (submit_test svc req w)
       = Ok (render_template "index.html" (Some "failure"))).
Proof.
  intros H.
  specialize (H accepting_services sample_request partial_world
                "https://example.com" sample_report partial_world
                (KeyError "interactive")
                (snd (extract_audits sample_report partial_world))
                eq_refl eq_refl).
  assert (Hx : extract_audits sample_report partial_world
               = (Raise (KeyError "interactive"),
                  snd (extract_audits sample_report partial_world)))
    by (vm_compute; reflexivity).
  specialize (H Hx). vm_compute in H. discriminate H.
Qed.

(** C3, amended: every [ValueError] and every [RuntimeError] raised by the
    insert step is caught by the handler, sent to the log and rendered as
    the one state ['failure']. *)
Theorem submit_test_insert_errors_rendered svc req w url psi w1 row w2 table e w3 :
  form req !! "test_url" = Some url ->
  get_psi_audit svc url w = (Ok psi, w1) ->
  extract_audits psi w1 = (Ok row, w2) ->
  environ w2 !! "BIGQUERY_TABLE" = Some table ->
  insert_audits svc table row w2 = (Raise e, w3) ->
  isinstance e "ValueError" || isinstance e "RuntimeError" = true ->
  submit_test svc req w
  = (Ok (render_template "index.html" (Some "failure")),
     add_log w3 (LogRecord (exn_str e) e)).
Proof.
  intros Hf Hg Hx Hb Hi Hc.
  rewrite submit_test_eq, Hf, Hg, Hx, Hb, Hi, Hc. reflexivity.
Qed.

Lemma submit_test_insert_errors_rendered_witness :
  submit_test rejecting_services sample_request sample_world
  = (Ok (render_template "index.html" (Some "failure")),
     add_log extracted_world
       (LogRecord (write_error_message [sample_row_error])
                  (RuntimeError (write_error_message [sample_row_error])))).
Proof.
  apply (submit_test_insert_errors_rendered rejecting_services sample_request
           sample_world "https://example.com" sample_report sample_world
           (VRef 4) extracted_world "psi.audits"
           (RuntimeError (write_error_message [sample_row_error]))
           extracted_world).
  - reflexivity.
  - reflexivity.
  - vm_compute. reflexivity.
  - reflexivity.
  - vm_compute. reflexivity.
  - reflexivity.
Defined.

(** ** What the pattern of the timestamp matches *)

Lemma cls_inv f s a r :
  In (a, r) (cls f s) -> exists c, s = String c r /\ a = String c "" /\ f c = true.
Proof.
  unfold cls. destruct s as [|c s']; [intros []|].
  destruct (f c) eqn:E; [|intros []].
  intros [[= <- <-]|[]]. eauto.
Qed.

Lemma cat_inv p q s a r :
  In (a, r) (cat p q s) ->
  exists a1 r1 a2, In (a1, r1) (p s) /\ In (a2, r) (q r1) /\ a = a1 +:+ a2.
Proof.
  unfold cat. intros H. apply in_flat_map in H.
  destruct H as ([a1 r1] & H1 & H2). apply in_map_iff in H2.
  destruct H2 as ([a2 r2] & [= <- <-] & H2). simpl. eauto 6.
Qed.

Lemma alt_inv p q s x : In x (alt p q s) -> In x (p s) \/ In x (q s).
Proof. unfold alt. apply in_app_or. Qed.

Lemma eps_inv s a r : In (a, r) (eps s) -> a = "" /\ r = s.
Proof. intros [[= <- <-]|[]]. auto. Qed.

Lemma in_range_digit lo hi c :
  in_range lo hi c = true ->
  (48 <= N_of_ascii lo)%N -> (N_of_ascii hi <= 57)%N ->
  is_digit c = true.
Proof.
  unfold is_digit, in_range. intros H Hlo Hhi.
  apply andb_true_iff in H. destruct H as [H1 H2].
  apply N.leb_le in H1, H2. apply andb_true_iff.
  change (N_of_ascii "0") with 48%N. change (N_of_ascii "9") with 57%N.
  split; apply N.leb_le; lia.
Qed.

Lemma eqb_digit d c :
  Ascii.eqb d c = true -> is_digit d = true -> is_digit c = true.
Proof. intros H. apply Ascii.eqb_eq in H. now subst. Qed.

(** Takes a match of a group apart, down to its characters. *)
Ltac invert_match :=
  repeat match goal with
         | H : In _ (alt _ _ _) |- _ => apply alt_inv in H; destruct H as [H|H]
         | H : In (_, _) (cat _ _ _) |- _ =>
             apply cat_inv in H;
             let a1 := fresh "a" in let r1 := fresh "r" in
             let a2 := fresh "a" in
             destruct H as (a1 & r1 & a2 & ? & ? & ->)
         | H : In (_, _) (cls _ _) |- _ =>
             apply cls_inv in H;
             let c := fresh "c" in destruct H as (c & -> & -> & ?)
         | H : In (_, _) (rng _ _ _) |- _ => unfold rng in H
         | H : In (_, _) (chr _ _) |- _ => unfold chr in H
         | H : In (_, _) (digit _) |- _ => unfold digit, rng in H
         | H : In (_, _) (eps _) |- _ =>
             apply eps_inv in H; destruct H as [-> ->]
         | H : In (_, _) (upto (S _) _ _) |- _ => cbn [upto] in H
         | H : In (_, _) (upto O _ _) |- _ => cbn [upto] in H
         end.

Ltac digit_facts :=
  repeat match goal with
         | H : in_range _ _ ?c = true |- _ =>
             apply in_range_digit in H; [|vm_compute; discriminate..]
         | H : Ascii.eqb ?d ?c = true |- _ =>
             apply eqb_digit in H; [|reflexivity]
         end.

Ltac digits_done :=
  split; [rewrite ?append_cons, ?append_nil_l; reflexivity
         |split; [simpl; digit_facts;
                  repeat match goal with H : is_digit _ = true |- _ =>
                           rewrite H; clear H end; reflexivity
                 |simpl; lia]].

Lemma re_Y_sound s t r :
  In (t, r) (re_Y s) -> s = t +:+ r /\ digits_text 4 4 t.
Proof. unfold re_Y. intros H. invert_match. digits_done. Qed.

Lemma re_m_sound s t r :
  In (t, r) (re_m s) -> s = t +:+ r /\ digits_text 1 2 t.
Proof. unfold re_m. intros H. invert_match; digits_done. Qed.

Lemma re_H_sound s t r :
  In (t, r) (re_H s) -> s = t +:+ r /\ digits_text 1 2 t.
Proof. unfold re_H. intros H. invert_match; digits_done. Qed.

Lemma re_M_sound s t r :
  In (t, r) (re_M s) -> s = t +:+ r /\ digits_text 1 2 t.
Proof. unfold re_M. intros H. invert_match; digits_done. Qed.

Lemma re_S_sound s t r :
  In (t, r) (re_S s) -> s = t +:+ r /\ digits_text 1 2 t.
Proof. unfold re_S. intros H. invert_match; digits_done. Qed.

Lemma re_f_sound s t r :
  In (t, r) (re_f s) -> s = t +:+ r /\ digits_text 1 6 t.
Proof. unfold re_f. intros H. invert_match; digits_done. Qed.

Lemma re_d_sound s t r :
  In (t, r) (re_d s) ->
  (s = t +:+ r /\ digits_text 1 2 t)
  \/ exists c, t = String " " (String c "") /\ s = t +:+ r /\ is_digit c = true.
Proof.
  unfold re_d. intros H. invert_match;
    first [left; digits_done
          |right; eexists; split;
           [match goal with H : Ascii.eqb _ _ = true |- _ =>
              apply Ascii.eqb_eq in H; rewrite <- H end; reflexivity
           |split; [reflexivity|digit_facts; assumption]]].
Qed.

(** A literal of the format matches itself, a letter in either case. *)
Lemma lit_chars c x :
  Ascii.eqb (ascii_lower x) (ascii_lower c) = true ->
  In c ["-"; ":"; "."; "T"; "Z"]%char ->
  is_digit x = false
  /\ (x = c \/ (c = "T" /\ x = "t") \/ (c = "Z" /\ x = "z"))%char.
Proof.
  intros H Hin. simpl in Hin.
  destruct Hin as [<-|[<-|[<-|[<-|[<-|[]]]]]];
    destruct x as [[] [] [] [] [] [] [] []]; vm_compute in H;
    try discriminate H; vm_compute; auto.
Qed.

Lemma run_lit_inv c its s g rest :
  In (g, rest) (run (ILit c :: its) s) ->
  exists x s', s = String x s'
               /\ Ascii.eqb (ascii_lower x) (ascii_lower c) = true
               /\ In (g, rest) (run its s').
Proof.
  cbn [run]. intros H. apply in_flat_map in H.
  destruct H as ([a r] & H1 & H2). apply cls_inv in H1.
  destruct H1 as (x & -> & -> & Hx). simpl in H2. eauto.
Qed.

Lemma run_group_inv d p its s g rest :
  In (g, rest) (run (IGroup d p :: its) s) ->
  exists t r g', In (t, r) (p s) /\ In (g', rest) (run its r)
                 /\ g = (d, t) :: g'.
Proof.
  cbn [run]. intros H. apply in_flat_map in H.
  destruct H as ([t r] & H1 & H2). apply in_map_iff in H2.
  destruct H2 as ([g' rest'] & [= <- <-] & H2). simpl. eauto 6.
Qed.

Lemma compile_timestamp_format : compile timestamp_format = Some timestamp_items.
Proof. reflexivity. Qed.

(** Digits followed by something that is no digit are spanned whole. *)
Lemma span_digits_app t x r :
  forallb is_digit (list_ascii_of_string t) = true ->
  is_digit x = false ->
  span_digits (t +:+ String x r) = (String.length t, String x r).
Proof.
  induction t as [|c t IH]; intros Ht Hx.
  - rewrite append_nil_l. simpl. now rewrite Hx.
  - rewrite append_cons. simpl in Ht. apply andb_true_iff in Ht.
    destruct Ht as [Hc Ht]. cbn [span_digits String.length].
    rewrite Hc, (IH Ht Hx). reflexivity.
Qed.

Lemma shape_digits_step lo hi sh t x r :
  digits_text lo hi t -> is_digit x = false ->
  shape_match (SDigits lo hi :: sh) (t +:+ String x r)
  = shape_match sh (String x r).
Proof.
  intros [Ht [Hlo Hhi]] Hx. cbn [shape_match].
  rewrite (span_digits_app _ _ _ Ht Hx). cbn [fst snd].
  apply Nat.leb_le in Hlo, Hhi. now rewrite Hlo, Hhi.
Qed.

Lemma shape_one_of_step cs sh x r :
  existsb (Ascii.eqb x) cs = true ->
  shape_match (SOneOf cs :: sh) (String x r) = shape_match sh r.
Proof. intros H. cbn [shape_match]. now rewrite H. Qed.

Lemma digits_text_head lo hi t :
  digits_text lo hi t -> (1 <= lo)%nat ->
  exists c t', t = String c t' /\ is_digit c = true.
Proof.
  intros [Ht [Hlo _]] H1. destruct t as [|c t']; [simpl in Hlo; lia|].
  simpl in Ht. apply andb_true_iff in Ht. destruct Ht as [Hc _]. eauto.
Qed.

Lemma shape_optional_skip sh t r lo hi :
  digits_text lo hi t -> (1 <= lo)%nat ->
  shape_match (SOptional " " :: sh) (t +:+ r) = shape_match sh (t +:+ r).
Proof.
  intros Ht H1. destruct (digits_text_head _ _ _ Ht H1) as (c & t' & -> & Hc).
  rewrite append_cons. cbn [shape_match].
  destruct (Ascii.eqb " " c) eqn:E; [|reflexivity].
  apply Ascii.eqb_eq in E. subst c. discriminate Hc.
Qed.

Lemma shape_optional_take sh c r :
  shape_match (SOptional c :: sh) (String c r) = shape_match sh r.
Proof. cbn [shape_match]. now rewrite Ascii.eqb_refl. Qed.

Lemma one_of_lit c x cs :
  (x = c \/ (c = "T" /\ x = "t") \/ (c = "Z" /\ x = "z"))%char ->
  (existsb (Ascii.eqb c) cs = true) ->
  (c = "T"%char -> existsb (Ascii.eqb "t") cs = true) ->
  (c = "Z"%char -> existsb (Ascii.eqb "z") cs = true) ->
  existsb (Ascii.eqb x) cs = true.
Proof. intros [->|[[-> ->]|[-> ->]]]; auto. Qed.

Lemma digits_text_one c : is_digit c = true -> digits_text 1 2 (String c "").
Proof. intros H. split; [simpl; now rewrite H|simpl; lia]. Qed.

Lemma shape_digit_one sh c x r :
  is_digit c = true -> is_digit x = false ->
  shape_match (SDigits 1 2 :: sh) (String c (String x r))
  = shape_match sh (String x r).
Proof.
  intros Hc Hx.
  apply (shape_digits_step 1 2 sh (String c "") x r (digits_text_one c Hc) Hx).
Qed.

(** One item of the shape, consumed. *)
Ltac shape_step :=
  first
    [ rewrite shape_digits_step by assumption
    | rewrite shape_one_of_step
        by (eapply one_of_lit;
            [eassumption|reflexivity
            |intros; first [discriminate|reflexivity]..]) ].

(** Whatever the pattern matches in full has the shape of a timestamp. *)
Lemma run_timestamp_shape s g :
  In (g, "") (run timestamp_items s) -> matches_timestamp_shape s = true.
Proof.
  unfold timestamp_items. intros H.
  apply run_group_inv in H. destruct H as (tY & r1 & g1 & HY & H & _).
  apply run_lit_inv in H. destruct H as (x1 & s1 & -> & L1 & H).
  apply run_group_inv in H. destruct H as (tm & r2 & g2 & Hm & H & _).
  apply run_lit_inv in H. destruct H as (x2 & s2 & -> & L2 & H).
  apply run_group_inv in H. destruct H as (td & r3 & g3 & Hd & H & _).
  apply run_lit_inv in H. destruct H as (x3 & s3 & -> & L3 & H).
  apply run_group_inv in H. destruct H as (tH & r4 & g4 & HH & H & _).
  apply run_lit_inv in H. destruct H as (x4 & s4 & -> & L4 & H).
  apply run_group_inv in H. destruct H as (tM & r5 & g5 & HM & H & _).
  apply run_lit_inv in H. destruct H as (x5 & s5 & -> & L5 & H).
  apply run_group_inv in H. destruct H as (tS & r6 & g6 & HS & H & _).
  apply run_lit_inv in H. destruct H as (x6 & s6 & -> & L6 & H).
  apply run_group_inv in H. destruct H as (tf & r7 & g7 & Hf & H & _).
  apply run_lit_inv in H. destruct H as (x7 & s7 & -> & L7 & H).
  cbn [run] in H. destruct H as [[= _ ->]|[]].
  apply re_Y_sound in HY. destruct HY as [-> DY].
  apply re_m_sound in Hm. destruct Hm as [-> Dm].
  apply re_H_sound in HH. destruct HH as [-> DH].
  apply re_M_sound in HM. destruct HM as [-> DM].
  apply re_S_sound in HS. destruct HS as [-> DS].
  apply re_f_sound in Hf. destruct Hf as [-> Df].
  apply lit_chars in L1; [|in_list]. destruct L1 as [N1 C1].
  apply lit_chars in L2; [|in_list]. destruct L2 as [N2 C2].
  apply lit_chars in L3; [|in_list]. destruct L3 as [N3 C3].
  apply lit_chars in L4; [|in_list]. destruct L4 as [N4 C4].
  apply lit_chars in L5; [|in_list]. destruct L5 as [N5 C5].
  apply lit_chars in L6; [|in_list]. destruct L6 as [N6 C6].
  apply lit_chars in L7; [|in_list]. destruct L7 as [N7 C7].
  unfold matches_timestamp_shape, timestamp_shape.
  do 4 shape_step.
  apply re_d_sound in Hd. destruct Hd as [[-> Dd]|(c & -> & -> & Hc)].
  - rewrite (shape_optional_skip _ _ _ _ _ Dd) by lia.
    do 10 shape_step. reflexivity.
  - rewrite !append_cons, append_nil_l, shape_optional_take.
    rewrite shape_digit_one by assumption.
    do 9 shape_step. reflexivity.
Qed.

Lemma strptime_str_error s fmt e :
  strptime_str s fmt = Raise e -> exists msg, e = ValueError msg.
Proof.
  unfold strptime_str.
  destruct (compile fmt); [|intros [= <-]; eauto].
  destruct (run l s) as [|[g rest] ?]; [intros [= <-]; eauto|].
  destruct (negb (rest =? "")%string); [intros [= <-]; eauto|].
  unfold datetime_new.
  repeat match goal with
         | |- context [if ?b then _ else _] => destruct b
         end; intros [= <-]; eauto.
Qed.

(** A timestamp that is parsed has the shape. *)
Lemma strptime_str_shape s dt :
  strptime_str s timestamp_format = Ok dt -> matches_timestamp_shape s = true.
Proof.
  unfold strptime_str. rewrite compile_timestamp_format.
  destruct (run timestamp_items s) as [|[g rest] l] eqn:Hrun; [discriminate|].
  destruct (rest =? "")%string eqn:E; [|discriminate]. intros _.
  apply String.eqb_eq in E. subst rest.
  apply (run_timestamp_shape s g). rewrite Hrun. now left.
Qed.

(** ** The ['date'] cell *)

Lemma dict_get_set_ne {A} k k' (v : A) d :
  k <> k' -> dict_get k (dict_set k' v d) = dict_get k d.
Proof.
  intros Hne. induction d as [|[k0 v0] d IH]; simpl.
  - destruct (String.eqb k k') eqn:E; [|reflexivity].
    apply String.eqb_eq in E. contradiction.
  - destruct (String.eqb k' k0) eqn:E0; simpl.
    + apply String.eqb_eq in E0. subst k0.
      destruct (String.eqb k k') eqn:E; [|reflexivity].
      apply String.eqb_eq in E. contradiction.
    + now rewrite IH.
Qed.

Lemma column_not_date a col : dict_get a audits = Some col -> "date" <> col.
Proof.
  intros H. apply dict_get_In in H. simpl in H.
  repeat (destruct H as [[= <- <-]|H]; [discriminate|]). destruct H.
Qed.

(** The loop leaves the ['date'] of the row as it is. *)
Lemma for_each_extract_date psi w h : forall ids row,
  exists row',
    snd (for_each ids (extract_one psi (VRef (length h)))
           (set_heap w (h ++ [ODict row])))
    = set_heap w (h ++ [ODict row'])
    /\ dict_get "date" row' = dict_get "date" row.
Proof.
  induction ids as [|a ids IH]; cbn [for_each]; intros row; [simpl; eauto|].
  unfold bind at 1. rewrite extract_one_eq.
  destruct (resolve (h ++ [ODict row]) psi (metric_path a)) as [v|e]; [|eauto].
  destruct (dict_get a audits) as [col|] eqn:Hc; [|eauto].
  destruct (IH (dict_set col v row)) as (row' & H1 & H2).
  exists row'. split; [exact H1|].
  rewrite H2. apply dict_get_set_ne. eapply column_not_date; eauto.
Qed.

(** The first statement of [extract_audits] decides the ['date']: a text
    that does not parse ends the call, a text that parses is the ['date']
    of the row, should the call return one. *)
Lemma extract_audits_stamp psi w s :
  resolve (heap w) psi timestamp_path = Ok (VStr s) ->
  match strptime_str s timestamp_format with
  | Raise e => exists w', extract_audits psi w = (Raise e, w')
  | Ok dt =>
      forall row w',
        extract_audits psi w = (Ok row, w') ->
        exists d, row_dict (heap w') row = Some d
                  /\ dict_get "date" d = Some (VDatetime dt)
  end.
Proof.
  unfold timestamp_path. cbn [resolve]. intros Hs.
  destruct (subscript (heap w) psi "analysisUTCTimestamp") as [stamp|e] eqn:H1;
    [|discriminate].
  injection Hs as ->.
  unfold extract_audits, bind, new_dict, getitem.
  set (h := heap w) in *. cbn [heap set_heap].
  rewrite (subscript_ext _ [ODict []] _ _ _ H1), strptime_eq.
  unfold parse_stamp.
  destruct (strptime_str s timestamp_format) as [dt|e]; [|eauto].
  rewrite setitem_last. cbn [heap set_heap].
  intros row w'.
  destruct (subscript (h ++ [ODict _]) psi "lighthouseResult") as [lh|e1];
    [|discriminate].
  destruct (subscript (h ++ [ODict _]) lh "finalUrl") as [u|e1];
    [|discriminate].
  rewrite setitem_last.
  change (dict_set "url" u (dict_set "date" (VDatetime dt) []))
    with [("date", VDatetime dt); ("url", u)].
  destruct (for_each_extract_date psi w h (keys audits)
              [("date", VDatetime dt); ("url", u)]) as (row' & Hrow & Hdate).
  destruct (for_each _ _ _) as [[[]|e1] w1] eqn:Hf; [|discriminate].
  simpl in Hrow. subst w1. intros [= <- <-].
  exists row'. cbn [heap set_heap]. rewrite row_dict_last. auto.
Qed.

(** C8, as stated, fails: a timestamp with month, day and fraction written
    short is not of the form [YYYY-MM-DDTHH:MM:SS.ffffffZ], and it is
    parsed all the same. *)
Lemma extract_audits_parses_short_stamp :
  ~ (forall psi w s,
       resolve (heap w) psi timestamp_path = Ok (VStr s) ->
       matches_written_format s = false ->
       exists e w', extract_audits psi w = (Raise e, w')).
Proof.
  intros H.
  destruct (H sample_report short_world short_stamp eq_refl eq_refl)
    as (e & w' & Hx).
  vm_compute in Hx. discriminate Hx.
Qed.

(** C8, amended: [extract_audits] reads the top-level
    ['analysisUTCTimestamp'] with the pattern of ["%Y-%m-%dT%H:%M:%S.%fZ"].
    For a timestamp of ASCII characters: the ['date'] of a row it returns
    is that text parsed, and every text outside the shape the pattern can
    match (four digits, then month, day, hour, minute and second of one or
    two digits, a fraction of one to six digits, the letters T and Z in
    either case) makes the extraction raise a [ValueError].  The text
    ["2022-05-01T12:34:56.789012Z"] is parsed to 2022-05-01 12:34:56 and
    789012 microseconds. *)
Theorem extract_audits_timestamp psi w s :
  is_ascii s = true ->
  resolve (heap w) psi timestamp_path = Ok (VStr s) ->
  (forall row w',
     extract_audits psi w = (Ok row, w') ->
     exists d dt,
       row_dict (heap w') row = Some d
       /\ strptime_str s timestamp_format = Ok dt
       /\ dict_get "date" d = Some (VDatetime dt))
  /\ strptime_str "2022-05-01T12:34:56.789012Z" timestamp_format
     = Ok (Datetime 2022 5 1 12 34 56 789012)
  /\ (matches_timestamp_shape s = false ->
      exists msg w', extract_audits psi w = (Raise (ValueError msg), w')).
Proof.
  intros _ Hs. pose proof (extract_audits_stamp psi w s Hs) as H.
  destruct (strptime_str s timestamp_format) as [dt|e] eqn:Hp.
  - split; [|split].
    + intros row w' Hx. destruct (H row w' Hx) as (d & H1 & H2). eauto.
    + vm_compute. reflexivity.
    + intros Hshape. apply strptime_str_shape in Hp. congruence.
  - destruct H as [w' Hx]. destruct (strptime_str_error _ _ _ Hp) as [msg ->].
    split; [|split].
    + intros row w'' Hx'. rewrite Hx in Hx'. discriminate.
    + vm_compute. reflexivity.
    + eauto.
Qed.

Lemma extract_audits_timestamp_witness :
  exists msg w',
    extract_audits sample_report bad_stamp_world = (Raise (ValueError msg), w').
Proof.
  refine (proj2 (proj2 (extract_audits_timestamp sample_report bad_stamp_world
                          "yesterday" _ _)) _);
    reflexivity.
Defined.

(** * Further properties of the four functions *)

(** ** [get_psi_audit] beyond HTTP errors *)

(** X1: an exception of the remote call that is no [HttpError] leaves
    [get_psi_audit] as it is: nothing is logged and the state is the one
    before the call. *)
Theorem get_psi_audit_other_errors_propagate svc url w e :
  psi_reply svc (PsiRequest url "PERFORMANCE" "MOBILE") = Raise e ->
  isinstance e "HttpError" = false ->
  get_psi_audit svc url w = (Raise e, w).
Proof.
  intros Hr Hi. rewrite get_psi_audit_eq. unfold audit_request.
  now rewrite Hr, Hi.
Qed.

Lemma get_psi_audit_other_errors_propagate_witness :
  get_psi_audit timeout_services "https://example.com" sample_world
  = (Raise (ForeignError ["TimeoutError"; "OSError"; "Exception";
                          "BaseException"] "timed out"), sample_world).
Proof.
  apply (get_psi_audit_other_errors_propagate timeout_services
           "https://example.com" sample_world); reflexivity.
Defined.

(** X2: [get_psi_audit] writes nothing but the log: store, environment
    and tables are as before; the log is as before unless the call
    returns [None] for an [HttpError], and then it holds one record more,
    the one of that error. *)
Theorem get_psi_audit_effects svc url w :
  heap (snd (get_psi_audit svc url w)) = heap w
  /\ environ (snd (get_psi_audit svc url w)) = environ w
  /\ tables (snd (get_psi_audit svc url w)) = tables w
  /\ (log (snd (get_psi_audit svc url w)) = log w
      \/ exists he msg,
           isinstance he "HttpError" = true
           /\ fst (get_psi_audit svc url w) = Ok VNone
           /\ log (snd (get_psi_audit svc url w))
              = log w ++ [LogRecord msg he]).
Proof.
  rewrite get_psi_audit_eq.
  destruct (psi_reply svc (audit_request url)) as [psi|he]; [simpl; auto|].
  destruct (isinstance he "HttpError") eqn:E; simpl; [|auto].
  repeat split. right. eauto.
Qed.

(** ** [insert_audits]: what it changes and when *)

Lemma insert_audits_cases svc table row w :
  (exists e, insert_audits svc table row w = (Raise e, w))
  \/ exists project rows d,
       environ w !! "GOOGLE_CLOUD_PROJECT" = Some project
       /\ tables w !! (project +:+ "." +:+ table) = Some rows
       /\ row_dict (heap w) row = Some d
       /\ bq_reply svc (project +:+ "." +:+ table) [d] = Ok []
       /\ insert_audits svc table row w
          = (Ok tt,
             set_tables w
               (<[project +:+ "." +:+ table := rows ++ [d]]> (tables w))).
Proof.
  unfold insert_audits, bind, bigquery_Client, os_environ_getitem, get_table,
    insert_rows.
  destruct (bq_client svc) as [[]|e]; [|eauto].
  destruct (environ w !! "GOOGLE_CLOUD_PROJECT") as [project|] eqn:He; [|eauto].
  destruct (tables w !! (project +:+ "." +:+ table)) as [rows|] eqn:Ht; [|eauto].
  cbn [mapM]. destruct (row_dict (heap w) row) as [d|] eqn:Hd; [|left; eauto].
  cbn [mbind option_bind mret option_ret].
  destruct (bq_reply svc (project +:+ "." +:+ table) [d]) as [[|x errs]|e] eqn:E;
    [|left; eauto..].
  right. exists project, rows, d. cbv beta iota. rewrite Ht. auto.
Qed.

Lemma insert_audits_no_project svc table row w :
  bq_client svc = Ok tt ->
  environ w !! "GOOGLE_CLOUD_PROJECT" = None ->
  insert_audits svc table row w = (Raise (KeyError "GOOGLE_CLOUD_PROJECT"), w).
Proof.
  intros Hc He. unfold insert_audits, bind, bigquery_Client, os_environ_getitem.
  now rewrite Hc, He.
Qed.

(** X4: without [GOOGLE_CLOUD_PROJECT] in the environment, [insert_audits]
    raises [KeyError] for that name, whatever the table and the row, and
    stores nothing; the handler's [except] clause does not take it. *)
Theorem insert_audits_missing_project svc table row w :
  bq_client svc = Ok tt ->
  environ w !! "GOOGLE_CLOUD_PROJECT" = None ->
  insert_audits svc table row w = (Raise (KeyError "GOOGLE_CLOUD_PROJECT"), w)
  /\ handled (KeyError "GOOGLE_CLOUD_PROJECT") = false.
Proof.
  intros Hc He. split; [now apply insert_audits_no_project|reflexivity].
Qed.

Lemma insert_audits_missing_project_witness :
  insert_audits accepting_services "psi.audits" (VRef 0) no_project_world
  = (Raise (KeyError "GOOGLE_CLOUD_PROJECT"), no_project_world).
Proof.
  apply (proj1 (insert_audits_missing_project accepting_services "psi.audits"
                  (VRef 0) no_project_world eq_refl eq_refl)).
Defined.

Lemma insert_audits_no_table svc table row w project :
  bq_client svc = Ok tt ->
  environ w !! "GOOGLE_CLOUD_PROJECT" = Some project ->
  tables w !! (project +:+ "." +:+ table) = None ->
  insert_audits svc table row w
  = (Raise (bq_no_table svc (project +:+ "." +:+ table)), w).
Proof.
  intros Hc He Ht.
  unfold insert_audits, bind, bigquery_Client, os_environ_getitem, get_table.
  now rewrite Hc, He, Ht.
Qed.

(** ** [submit_test]: every way through the handler *)

Lemma extract_audits_none w :
  extract_audits VNone w
  = (Raise (TypeError "'NoneType' object is not subscriptable"),
     set_heap w (heap w ++ [ODict []])).
Proof. reflexivity. Qed.

(** The outcomes of a request and the state each leaves. *)
Lemma submit_test_trace svc req w :
  (exists e h' lg,
     submit_test svc req w = (Raise e, World h' (environ w) lg (tables w))
     /\ (h' = heap w \/ exists d, h' = heap w ++ [ODict d])
     /\ (lg = log w \/ exists rec, lg = log w ++ [rec]))
  \/ (exists name rows d,
        tables w !! name = Some rows
        /\ submit_test svc req w
           = (Ok (render_template "index.html" (Some "success")),
              World (heap w ++ [ODict d]) (environ w) (log w)
                    (<[name := rows ++ [d]]> (tables w))))
  \/ (exists e d,
        handled e = true
        /\ submit_test svc req w
           = (Ok (render_template "index.html" (Some "failure")),
              World (heap w ++ [ODict d]) (environ w)
                    (log w ++ [LogRecord (exn_str e) e]) (tables w))).
Proof.
  assert (Hw : w = World (heap w) (environ w) (log w) (tables w))
    by (destruct w; reflexivity).
  rewrite submit_test_eq.
  destruct (form req !! "test_url") as [url|].
  2:{ left. do 3 eexists. split; [rewrite Hw at 1; reflexivity|]. auto. }
  rewrite get_psi_audit_eq.
  destruct (psi_reply svc (audit_request url)) as [psi|he].
  2:{ left. destruct (isinstance he "HttpError").
      - rewrite extract_audits_none. do 3 eexists.
        split; [reflexivity|]. cbn [heap add_log]. split; eauto.
      - do 3 eexists. split; [rewrite Hw at 1; reflexivity|]. auto. }
  destruct (extract_audits_frame psi w) as (d & Hd & Hv).
  destruct (extract_audits psi w) as [[row|e] w2]; simpl in Hd, Hv; subst w2.
  2:{ left. do 3 eexists. split; [reflexivity|]. split; eauto. }
  cbn [environ set_heap].
  destruct (environ w !! "BIGQUERY_TABLE") as [table|].
  2:{ left. do 3 eexists. split; [reflexivity|]. split; eauto. }
  destruct (insert_audits_cases svc table row (set_heap w (heap w ++ [ODict d])))
    as [[e H]|(project & rows & d' & He & Ht & Hrd & Hr & H)]; rewrite H.
  - destruct (isinstance e "ValueError" || isinstance e "RuntimeError") eqn:E.
    + right. right. exists e, d. split; [exact E|reflexivity].
    + left. do 3 eexists. split; [reflexivity|]. split; eauto.
  - right. left. rewrite (Hv row eq_refl) in Hrd.
    cbn [heap set_heap] in Hrd. rewrite row_dict_last in Hrd. injection Hrd as <-.
    exists (project +:+ "." +:+ table), rows, d. split; [exact Ht|reflexivity].
Qed.

(** X6: a request without the form field [test_url] ends in
    [BadRequestKeyError] before anything else happens: no audit is asked
    for, nothing is logged or stored. *)
Theorem submit_test_missing_field svc req w :
  form req !! "test_url" = None ->
  submit_test svc req w = (Raise (BadRequestKeyError "test_url"), w)
  /\ isinstance (BadRequestKeyError "test_url") "KeyError" = true
  /\ handled (BadRequestKeyError "test_url") = false.
Proof.
  intros Hf. rewrite submit_test_eq, Hf. repeat split.
Qed.

Lemma submit_test_missing_field_witness :
  submit_test accepting_services (Request ∅) sample_world
  = (Raise (BadRequestKeyError "test_url"), sample_world).
Proof.
  apply (submit_test_missing_field accepting_services (Request ∅) sample_world).
  reflexivity.
Defined.

(** X8: what a request sends to the log.  A request that renders
    ['success'] logs nothing; one that renders ['failure'] logs one
    record, the text and the exception of a [ValueError] or
    [RuntimeError]; no request logs more than one record. *)
Theorem submit_test_log svc req w :
  (fst (submit_test svc req w)
   = Ok (render_template "index.html" (Some "success")) ->
   log (snd (submit_test svc req w)) = log w)
  /\ (fst (submit_test svc req w)
      = Ok (render_template "index.html" (Some "failure")) ->
      exists e, handled e = true
                /\ log (snd (submit_test svc req w))
                   = log w ++ [LogRecord (exn_str e) e])
  /\ (log (snd (submit_test svc req w)) = log w
      \/ exists rec, log (snd (submit_test svc req w)) = log w ++ [rec]).
Proof.
  destruct (submit_test_trace svc req w)
    as [(e & h' & lg & H & _ & Hl)
       |[(name & rows & d & Ht & H)|(e & d & He & H)]]; rewrite H; simpl.
  - repeat split; try discriminate. exact Hl.
  - repeat split; try discriminate; auto.
  - repeat split; try discriminate; eauto.
Qed.

(** X9: a missing configuration is not rendered as ['failure'].  With a
    complete report in hand, a missing [BIGQUERY_TABLE] raises [KeyError]
    outside the [try]; a missing [GOOGLE_CLOUD_PROJECT] raises [KeyError]
    inside it, which the [except] clause does not take: both leave the
    handler.  What [get_table] raises for a name it finds no table for is
    rendered as ['failure'] exactly when it is a [ValueError] or a
    [RuntimeError], and leaves the handler otherwise. *)
Theorem submit_test_configuration_errors svc req w url psi :
  form req !! "test_url" = Some url ->
  psi_reply svc (PsiRequest url "PERFORMANCE" "MOBILE") = Ok psi ->
  complete_report (heap w) psi ->
  (environ w !! "BIGQUERY_TABLE" = None ->
   fst (submit_test svc req w) = Raise (KeyError "BIGQUERY_TABLE"))
  /\ (forall table,
        environ w !! "BIGQUERY_TABLE" = Some table ->
        bq_client svc = Ok tt ->
        environ w !! "GOOGLE_CLOUD_PROJECT" = None ->
        fst (submit_test svc req w) = Raise (KeyError "GOOGLE_CLOUD_PROJECT"))
  /\ (forall table project,
        environ w !! "BIGQUERY_TABLE" = Some table ->
        bq_client svc = Ok tt ->
        environ w !! "GOOGLE_CLOUD_PROJECT" = Some project ->
        tables w !! (project +:+ "." +:+ table) = None ->
        fst (submit_test svc req w)
        = if handled (bq_no_table svc (project +:+ "." +:+ table))
          then Ok (render_template "index.html" (Some "failure"))
          else Raise (bq_no_table svc (project +:+ "." +:+ table))).
Proof.
  intros Hf Hp Hc. destruct (complete_report_row _ _ Hc) as [d Hd].
  split; [|split].
  - intros Hb. rewrite submit_test_eq, Hf, get_psi_audit_eq.
    unfold audit_request. rewrite Hp, (extract_audits_ok _ _ _ Hd).
    cbn [environ set_heap]. now rewrite Hb.
  - intros table Hb Hcl Hg. rewrite submit_test_eq, Hf, get_psi_audit_eq.
    unfold audit_request. rewrite Hp, (extract_audits_ok _ _ _ Hd).
    cbn [environ set_heap]. rewrite Hb.
    rewrite insert_audits_no_project by assumption. reflexivity.
  - intros table project Hb Hcl Hg Ht.
    rewrite submit_test_eq, Hf, get_psi_audit_eq.
    unfold audit_request. rewrite Hp, (extract_audits_ok _ _ _ Hd).
    cbn [environ set_heap]. rewrite Hb.
    rewrite (insert_audits_no_table svc table _ (set_heap w _) project
               Hcl Hg Ht).
    cbn [fst].
    unfold handled.
    destruct (isinstance _ "ValueError" || isinstance _ "RuntimeError");
      reflexivity.
Qed.

Lemma submit_test_configuration_errors_witness :
  fst (submit_test accepting_services sample_request no_project_world)
  = Raise (KeyError "GOOGLE_CLOUD_PROJECT").
Proof.
  refine (proj1 (proj2 (submit_test_configuration_errors accepting_services
                          sample_request no_project_world
                          "https://example.com" sample_report _ _ _))
            "psi.audits" _ _ _);
    try reflexivity.
  exact sample_report_complete.
Defined.

(** ** The rows [extract_audits] returns *)

Lemma keys_dict_set k (v : val) d : keys (dict_set k v d) = add_key (keys d) k.
Proof.
  unfold add_key, keys. induction d as [|[k0 v0] d IH]; [reflexivity|].
  cbn [dict_set map fst existsb].
  destruct (String.eqb k k0) eqn:E; [reflexivity|].
  cbn [map fst orb]. rewrite IH.
  destruct (existsb (String.eqb k) (map fst d)); reflexivity.
Qed.

Lemma for_each_extract_keys psi w h : forall ids row,
  exists row',
    snd (for_each ids (extract_one psi (VRef (length h)))
           (set_heap w (h ++ [ODict row])))
    = set_heap w (h ++ [ODict row'])
    /\ dict_get "date" row' = dict_get "date" row
    /\ (fst (for_each ids (extract_one psi (VRef (length h)))
               (set_heap w (h ++ [ODict row]))) = Ok tt ->
        keys row' = loop_keys (keys row) ids).
Proof.
  induction ids as [|a ids IH]; cbn [for_each]; intros row; [simpl; eauto|].
  unfold bind at 1 2. rewrite extract_one_eq.
  destruct (resolve (h ++ [ODict row]) psi (metric_path a)) as [v|e];
    [|exists row; simpl; repeat split; discriminate].
  destruct (dict_get a audits) as [col|] eqn:Hc;
    [|exists row; simpl; repeat split; discriminate].
  destruct (IH (dict_set col v row)) as (row' & H1 & H2 & H3).
  exists row'. split; [exact H1|]. split.
  - rewrite H2. apply dict_get_set_ne. eapply column_not_date; eauto.
  - intros Hok. rewrite (H3 Hok), keys_dict_set.
    unfold loop_keys. cbn [fold_left]. now rewrite Hc.
Qed.

(** X10: every row [extract_audits] returns, from whatever input, has
    the same fifteen keys in the same order, none of them twice: ['date'],
    ['url'] and the thirteen metric names written with underscores; its
    ['date'] is a timestamp. *)
Theorem extract_audits_row_invariant psi w row w' :
  extract_audits psi w = (Ok row, w') ->
  exists d dt,
    row_dict (heap w') row = Some d
    /\ keys d
       = [ "date"; "url"; "speed_index"; "first_contentful_paint";
           "first_meaningful_paint"; "server_response_time";
           "network_server_latency"; "cumulative_layout_shift";
           "interactive"; "largest_contentful_paint"; "total_blocking_time";
           "first_cpu_idle"; "max_potential_fid"; "total_byte_weight";
           "estimated_input_latency" ]
    /\ NoDup (keys d)
    /\ dict_get "date" d = Some (VDatetime dt).
Proof.
  unfold extract_audits, bind, new_dict, getitem.
  set (h := heap w). cbn [heap set_heap].
  destruct (subscript (h ++ [ODict []]) psi "analysisUTCTimestamp")
    as [stamp|e1]; [|discriminate].
  rewrite strptime_eq. unfold parse_stamp.
  destruct stamp as [| | | |s| |]; try discriminate.
  destruct (strptime_str s timestamp_format) as [dt|e1] eqn:Hp; [|discriminate].
  rewrite setitem_last. cbn [heap set_heap].
  destruct (subscript (h ++ [ODict _]) psi "lighthouseResult") as [lh|e1];
    [|discriminate].
  destruct (subscript (h ++ [ODict _]) lh "finalUrl") as [u|e1];
    [|discriminate].
  rewrite setitem_last.
  change (dict_set "url" u (dict_set "date" (VDatetime dt) []))
    with [("date", VDatetime dt); ("url", u)].
  destruct (for_each_extract_keys psi w h (keys audits)
              [("date", VDatetime dt); ("url", u)])
    as (row' & Hrow & Hdate & Hkeys).
  destruct (for_each _ _ _) as [[[]|e1] w1] eqn:Hf; [|discriminate].
  simpl in Hrow. subst w1. intros [= <- <-].
  specialize (Hkeys eq_refl).
  exists row', dt. cbn [heap set_heap]. rewrite row_dict_last.
  assert (Hk : keys row' = row_keys) by (rewrite Hkeys; reflexivity).
  split; [reflexivity|]. split; [exact Hk|]. split; [|exact Hdate].
  rewrite Hk. apply NoDup_ListNoDup. unfold row_keys. simpl.
  repeat (constructor; [simpl; intuition discriminate|]). constructor.
Qed.

Lemma extract_audits_row_invariant_witness :
  exists d dt,
    row_dict (heap extracted_world) (VRef 4) = Some d
    /\ keys d
       = [ "date"; "url"; "speed_index"; "first_contentful_paint";
           "first_meaningful_paint"; "server_response_time";
           "network_server_latency"; "cumulative_layout_shift";
           "interactive"; "largest_contentful_paint"; "total_blocking_time";
           "first_cpu_idle"; "max_potential_fid"; "total_byte_weight";
           "estimated_input_latency" ]
    /\ NoDup (keys d)
    /\ dict_get "date" d = Some (VDatetime dt).
Proof.
  apply (extract_audits_row_invariant sample_report sample_world (VRef 4)
           extracted_world).
  vm_compute. reflexivity.
Defined.

(** ** Which error [extract_audits] raises *)

Lemma audits_has_column a : In a (keys audits) -> dict_get a audits <> None.
Proof.
  intros Hin. simpl in Hin.
  repeat (destruct Hin as [<-|Hin]; [discriminate|]). destruct Hin.
Qed.

Lemma metric_cells_first_error h psi a e ids2 : forall ids1,
  (forall x, In x ids1 -> missing h psi (metric_path x) = false) ->
  (forall x, In x ids1 -> dict_get x audits <> None) ->
  resolve h psi (metric_path a) = Raise e ->
  metric_cells h psi (ids1 ++ a :: ids2) = Raise e.
Proof.
  induction ids1 as [|x ids1 IH]; intros Hm Hc Hr.
  - cbn [app metric_cells]. now rewrite Hr.
  - cbn [app metric_cells].
    pose proof (Hm x (or_introl eq_refl)) as Hx. unfold missing in Hx.
    destruct (resolve h psi (metric_path x)) as [v|e']; [|discriminate].
    destruct (dict_get x audits) as [col|] eqn:E;
      [|destruct (Hc x (or_introl eq_refl) E)].
    rewrite IH; auto; intros; [apply Hm|apply Hc]; now right.
Qed.

Lemma extract_row_first_error h psi before path after e :
  required_paths = before ++ path :: after ->
  (forall p, In p before -> missing h psi p = false) ->
  (before <> [] ->
   exists s dt, resolve h psi timestamp_path = Ok (VStr s)
                /\ strptime_str s timestamp_format = Ok dt) ->
  resolve h psi path = Raise e ->
  extract_row h psi = Raise e.
Proof.
  intros Hsplit Hm Hs Hr. unfold extract_row, required_paths in *.
  destruct before as [|b0 before].
  - injection Hsplit as <- _. now rewrite Hr.
  - injection Hsplit as <- Hsplit.
    destruct Hs as (s & dt & H1 & H2); [discriminate|].
    rewrite H1. unfold parse_stamp. rewrite H2.
    destruct before as [|b1 before].
    + injection Hsplit as <- _. now rewrite Hr.
    + injection Hsplit as <- Hsplit.
      pose proof (Hm url_path (or_intror (or_introl eq_refl))) as Hu.
      unfold missing in Hu.
      destruct (resolve h psi url_path) as [u|e']; [|discriminate].
      change (map metric_path (keys audits) = before ++ path :: after)
        in Hsplit.
      apply map_eq_app in Hsplit.
      destruct Hsplit as (ids1 & l2 & Hk & <- & Hl2).
      apply map_eq_cons in Hl2. destruct Hl2 as (a & ids2 & -> & <- & _).
      rewrite Hk, (metric_cells_first_error h psi a e ids2 ids1); auto.
      * intros x Hx. apply Hm. right. right. now apply in_map.
      * intros x Hx. apply audits_has_column. rewrite Hk.
        apply in_or_app. now left.
Qed.

(** X11: [extract_audits] reads the timestamp, then the final URL, then
    the audits in the order of its table, and stops at the first place it
    cannot read: the exception raised is the one of that place, so a
    [KeyError] names the first key found missing. *)
Theorem extract_audits_first_error psi w before path after e :
  closed (heap w) = true ->
  val_in (heap w) psi = true ->
  required_paths = before ++ path :: after ->
  (forall p, In p before -> missing (heap w) psi p = false) ->
  (before <> [] ->
   exists s dt, resolve (heap w) psi timestamp_path = Ok (VStr s)
                /\ strptime_str s timestamp_format = Ok dt) ->
  resolve (heap w) psi path = Raise e ->
  exists w', extract_audits psi w = (Raise e, w').
Proof.
  intros Hc Hv Hsplit Hm Hs Hr.
  pose proof (extract_row_first_error _ _ _ _ _ _ Hsplit Hm Hs Hr) as Hrow.
  destruct (extract_audits_raise _ _ _ Hc Hv Hrow) as (d & Hd). eauto.
Qed.

Lemma extract_audits_first_error_witness :
  exists w',
    extract_audits sample_report partial_world
    = (Raise (KeyError "interactive"), w').
Proof.
  apply (extract_audits_first_error sample_report partial_world
           (timestamp_path :: url_path
            :: map metric_path (firstn 6 (keys audits)))
           (metric_path "interactive")
           (map metric_path (skipn 7 (keys audits)))).
  - reflexivity.
  - reflexivity.
  - reflexivity.
  - intros p Hin. simpl in Hin.
    repeat (destruct Hin as [<-|Hin]; [reflexivity|]). destruct Hin.
  - intros _. exists sample_stamp, sample_date. split; [reflexivity|].
    vm_compute. reflexivity.
  - reflexivity.
Defined.

(** X12: a timestamp that is no text (a number, [None], a dict) makes
    [extract_audits] raise a [TypeError], the one of [strptime], whatever
    the rest of the report holds. *)
Theorem extract_audits_stamp_not_text psi w v :
  resolve (heap w) psi timestamp_path = Ok v ->
  is_text v = false ->
  exists msg w', extract_audits psi w = (Raise (TypeError msg), w').
Proof.
  unfold timestamp_path. cbn [resolve]. intros Hs Hv.
  destruct (subscript (heap w) psi "analysisUTCTimestamp") as [stamp|e] eqn:H1;
    [|discriminate].
  injection Hs as ->.
  unfold extract_audits, bind, new_dict, getitem. cbn [heap set_heap].
  rewrite (subscript_ext _ [ODict []] _ _ _ H1), strptime_eq.
  unfold parse_stamp. destruct v; try discriminate; eauto.
Qed.

Lemma extract_audits_stamp_not_text_witness :
  exists msg w',
    extract_audits (VRef 0) numeric_stamp_world = (Raise (TypeError msg), w').
Proof.
  apply (extract_audits_stamp_not_text (VRef 0) numeric_stamp_world
           (VInt 1651408496)); reflexivity.
Defined.

(** ** Only fifteen places of the report matter *)

Lemma metric_cells_agree h psi h' psi' : forall ids,
  (forall a, In a ids ->
             resolve h psi (metric_path a) = resolve h' psi' (metric_path a)) ->
  metric_cells h psi ids = metric_cells h' psi' ids.
Proof.
  induction ids as [|a ids IH]; intros H; [reflexivity|].
  cbn [metric_cells]. rewrite (H a (or_introl eq_refl)).
  rewrite IH by (intros; apply H; now right). reflexivity.
Qed.

Lemma extract_row_agree h psi h' psi' :
  (forall p, In p required_paths -> resolve h psi p = resolve h' psi' p) ->
  extract_row h psi = extract_row h' psi'.
Proof.
  intros H. unfold extract_row.
  rewrite (H timestamp_path) by (left; reflexivity).
  rewrite (H url_path) by (right; left; reflexivity).
  rewrite (metric_cells_agree h psi h' psi' (keys audits)); [reflexivity|].
  intros a Ha. apply H. right. right. now apply in_map.
Qed.

(** X13: [extract_audits] looks at fifteen places of the report and at
    nothing else.  Two reports that agree on these places, whatever other
    fields they hold, give the same outcome: the same exception, or rows
    with the same keys and values. *)
Theorem extract_audits_reads_fifteen_places psi w psi' w' :
  closed (heap w) = true -> val_in (heap w) psi = true ->
  closed (heap w') = true -> val_in (heap w') psi' = true ->
  (forall p, In p required_paths ->
             resolve (heap w) psi p = resolve (heap w') psi' p) ->
  (exists e w1 w1',
     extract_audits psi w = (Raise e, w1)
     /\ extract_audits psi' w' = (Raise e, w1'))
  \/ (exists d r w1 r' w1',
        extract_audits psi w = (Ok r, w1)
        /\ extract_audits psi' w' = (Ok r', w1')
        /\ row_dict (heap w1) r = Some d
        /\ row_dict (heap w1') r' = Some d).
Proof.
  intros Hc Hv Hc' Hv' H. pose proof (extract_row_agree _ _ _ _ H) as E.
  destruct (extract_row (heap w) psi) as [d|e] eqn:Hrow.
  - right. symmetry in E.
    rewrite (extract_audits_ok _ _ _ Hrow), (extract_audits_ok _ _ _ E).
    do 5 eexists. split; [reflexivity|]. split; [reflexivity|].
    cbn [heap set_heap]. split; apply row_dict_last.
  - left. symmetry in E.
    destruct (extract_audits_raise _ _ _ Hc Hv Hrow) as (d & ->).
    destruct (extract_audits_raise _ _ _ Hc' Hv' E) as (d' & ->).
    eauto.
Qed.

Lemma extract_audits_reads_fifteen_places_witness :
  (exists e w1 w1',
     extract_audits sample_report sample_world = (Raise e, w1)
     /\ extract_audits sample_report verbose_world = (Raise e, w1'))
  \/ (exists d r w1 r' w1',
        extract_audits sample_report sample_world = (Ok r, w1)
        /\ extract_audits sample_report verbose_world = (Ok r', w1')
        /\ row_dict (heap w1) r = Some d
        /\ row_dict (heap w1') r' = Some d).
Proof.
  apply (extract_audits_reads_fifteen_places sample_report sample_world
           sample_report verbose_world); try reflexivity.
  intros p Hin. simpl in Hin.
  repeat (destruct Hin as [<-|Hin]; [reflexivity|]). destruct Hin.
Defined.

(** ** From request to stored row *)

Lemma submit_test_success_eq svc req w url psi d table project rows :
  form req !! "test_url" = Some url ->
  psi_reply svc (PsiRequest url "PERFORMANCE" "MOBILE") = Ok psi ->
  extract_row (heap w) psi = Ok d ->
  environ w !! "BIGQUERY_TABLE" = Some table ->
  bq_client svc = Ok tt ->
  environ w !! "GOOGLE_CLOUD_PROJECT" = Some project ->
  tables w !! (project +:+ "." +:+ table) = Some rows ->
  bq_reply svc (project +:+ "." +:+ table) [d] = Ok [] ->
  submit_test svc req w
  = (Ok (render_template "index.html" (Some "success")),
     World (heap w ++ [ODict d]) (environ w) (log w)
           (<[project +:+ "." +:+ table := rows ++ [d]]> (tables w))).
Proof.
  intros Hf Hp Hd Hb Hcl Hg Ht Hq.
  rewrite submit_test_eq, Hf, get_psi_audit_eq. unfold audit_request.
  rewrite Hp, (extract_audits_ok _ _ _ Hd).
  cbn [environ set_heap]. rewrite Hb.
  rewrite (insert_audits_eq svc table _ _ project rows d []);
    [reflexivity|exact Hcl|exact Hg|exact Ht|apply row_dict_last|exact Hq].
Qed.



Lemma metric_cells_ext h ext psi : forall ids cells,
  metric_cells h psi ids = Ok cells ->
  metric_cells (h ++ ext) psi ids = Ok cells.
Proof.
  induction ids as [|a ids IH]; cbn [metric_cells]; intros cells H; [exact H|].
  destruct (resolve h psi (metric_path a)) as [v|e] eqn:Hr; [|discriminate].
  rewrite (resolve_ext _ ext _ _ _ Hr).
  destruct (dict_get a audits) as [col|]; [|discriminate].
  destruct (metric_cells h psi ids) as [cs|e] eqn:Hm; [|discriminate].
  now rewrite (IH cs eq_refl).
Qed.

Lemma extract_row_ext h ext psi d :
  extract_row h psi = Ok d -> extract_row (h ++ ext) psi = Ok d.
Proof.
  unfold extract_row.
  destruct (resolve h psi timestamp_path) as [stamp|e] eqn:H1; [|discriminate].
  rewrite (resolve_ext _ ext _ _ _ H1).
  destruct (parse_stamp stamp) as [date|e]; [|discriminate].
  destruct (resolve h psi url_path) as [u|e] eqn:H3; [|discriminate].
  rewrite (resolve_ext _ ext _ _ _ H3).
  destruct (metric_cells h psi (keys audits)) as [cells|e] eqn:H5;
    [|discriminate].
  now rewrite (metric_cells_ext _ ext _ _ _ H5).
Qed.

(** X15: the handler does not look for a row it has stored before.  The
    same request served twice on the same report stores the row twice: the
    table ends with two equal rows, each built as a dict of its own. *)
Theorem submit_test_twice_stores_twice svc req w url psi table project rows :
  form req !! "test_url" = Some url ->
  psi_reply svc (PsiRequest url "PERFORMANCE" "MOBILE") = Ok psi ->
  complete_report (heap w) psi ->
  environ w !! "BIGQUERY_TABLE" = Some table ->
  bq_client svc = Ok tt ->
  environ w !! "GOOGLE_CLOUD_PROJECT" = Some project ->
  tables w !! (project +:+ "." +:+ table) = Some rows ->
  (forall ds, bq_reply svc (project +:+ "." +:+ table) ds = Ok []) ->
  exists d w1 w2,
    submit_test svc req w
    = (Ok (render_template "index.html" (Some "success")), w1)
    /\ submit_test svc req w1
       = (Ok (render_template "index.html" (Some "success")), w2)
    /\ tables w2 !! (project +:+ "." +:+ table) = Some (rows ++ [d; d])
    /\ heap w2 = heap w ++ [ODict d; ODict d].
Proof.
  intros Hf Hp Hc Hb Hcl Hg Ht Hq.
  destruct (complete_report_row _ _ Hc) as [d Hd].
  pose proof (submit_test_success_eq _ _ _ _ _ _ _ _ _
                Hf Hp Hd Hb Hcl Hg Ht (Hq _)) as E1.
  pose proof (submit_test_success_eq svc req
                (World (heap w ++ [ODict d]) (environ w) (log w)
                   (<[project +:+ "." +:+ table := rows ++ [d]]> (tables w)))
                url psi d table project (rows ++ [d]) Hf Hp
                (extract_row_ext _ [ODict d] _ _ Hd) Hb Hcl Hg
                (lookup_insert_eq _ _ _) (Hq _)) as E2.
  cbn [heap environ log tables] in E2.
  do 3 eexists. split; [exact E1|]. split; [exact E2|].
  cbn [tables heap]. split.
  - rewrite lookup_insert_eq, <- app_assoc. reflexivity.
  - rewrite <- app_assoc. reflexivity.
Qed.

Lemma submit_test_twice_stores_twice_witness :
  exists d w1 w2,
    submit_test accepting_services sample_request sample_world
    = (Ok (render_template "index.html" (Some "success")), w1)
    /\ submit_test accepting_services sample_request w1
       = (Ok (render_template "index.html" (Some "success")), w2)
    /\ tables w2 !! ("proj" +:+ "." +:+ "psi.audits") = Some ([] ++ [d; d])
    /\ heap w2 = heap sample_world ++ [ODict d; ODict d].
Proof.
  apply (submit_test_twice_stores_twice accepting_services sample_request
           sample_world "https://example.com" sample_report "psi.audits"
           "proj" []);
    try reflexivity;
    first [ exact sample_report_complete | vm_compute; reflexivity ].
Defined.

(** ** The form page *)

(** X16: a page that [submit_test] returns is made from the template
    [index_page] uses, and never with the state of [index_page]: the page
    after a submission always differs from the empty form. *)
Theorem index_page_state_unset svc req w w0 r r0 :
  fst (submit_test svc req w) = Ok r ->
  fst (index_page w0) = Ok r0 ->
  template r = template r0 /\ state r <> state r0.
Proof.
  intros H [= <-].
  destruct (submit_test_trace svc req w)
    as [(e & h' & lg & E & _)|[(name & rows & d & _ & E)|(e & d & _ & E)]];
    rewrite E in H; simpl in H; try discriminate;
    injection H as <-; (split; [reflexivity|discriminate]).
Qed.

Lemma index_page_state_unset_witness :
  template (render_template "index.html" (Some "success"))
  = template (render_template "index.html" None)
  /\ state (render_template "index.html" (Some "success"))
     <> state (render_template "index.html" None).
Proof.
  apply (index_page_state_unset accepting_services sample_request sample_world
           sample_world); vm_compute; reflexivity.
Defined.

(** ** When [extract_audits] returns *)




(** ** Timestamps written in full are read back *)

Lemma digit_char_code n : N_of_ascii (digit_char n) = Z.to_N (48 + n mod 10).
Proof.
  unfold digit_char. apply N_ascii_embedding.
  pose proof (Z.mod_pos_bound n 10 eq_refl). lia.
Qed.

Lemma digit_char_digit n : is_digit (digit_char n) = true.
Proof.
  unfold is_digit, in_range. rewrite digit_char_code.
  change (N_of_ascii "0") with 48%N. change (N_of_ascii "9") with 57%N.
  pose proof (Z.mod_pos_bound n 10 eq_refl).
  apply andb_true_iff. split; apply N.leb_le; lia.
Qed.

Lemma digit_val_char n : digit_val (digit_char n) = (n mod 10)%Z.
Proof.
  unfold digit_val. rewrite digit_char_code.
  pose proof (Z.mod_pos_bound n 10 eq_refl). lia.
Qed.

Lemma digit_char_no_blank n : Ascii.eqb (digit_char n) " " = false.
Proof.
  destruct (Ascii.eqb (digit_char n) " ") eqn:E; [|reflexivity].
  apply Ascii.eqb_eq in E. pose proof (digit_char_digit n) as H.
  rewrite E in H. discriminate H.
Qed.

Lemma digit_hit n r :
  digit (String (digit_char n) r) = [(String (digit_char n) "", r)].
Proof.
  unfold digit, rng, cls. fold (is_digit (digit_char n)).
  now rewrite digit_char_digit.
Qed.

Lemma hd_cat (p q : matcher) s a r1 b r2 :
  p s = [(a, r1)] -> hd_error (q r1) = Some (b, r2) ->
  hd_error (cat p q s) = Some (a +:+ b, r2).
Proof.
  intros Hp Hq. unfold cat. rewrite Hp. cbn [flat_map fst snd].
  rewrite app_nil_r. destruct (q r1) as [|[b' r'] l]; [discriminate|].
  injection Hq as -> ->. reflexivity.
Qed.

Lemma hd_cat_char (p q : matcher) s c r1 b r2 :
  p s = [(String c "", r1)] -> hd_error (q r1) = Some (b, r2) ->
  hd_error (cat p q s) = Some (String c b, r2).
Proof. apply hd_cat. Qed.

Lemma hd_alt (p q : matcher) s x :
  hd_error (p s) = Some x -> hd_error (alt p q s) = Some x.
Proof.
  unfold alt. destruct (p s); [discriminate|]. intros H. exact H.
Qed.

Lemma hd_digit n r :
  hd_error (digit (String (digit_char n) r))
  = Some (String (digit_char n) "", r).
Proof. now rewrite digit_hit. Qed.

Lemma re_Y_hd n r :
  hd_error (re_Y (four_digits n +:+ r)) = Some (four_digits n, r).
Proof.
  unfold re_Y, four_digits, two_digits. rewrite !append_cons, append_nil_l.
  do 3 (eapply hd_cat_char; [apply digit_hit|]). apply hd_digit.
Qed.

Lemma re_f_hd n r :
  hd_error (re_f (six_digits n +:+ r)) = Some (six_digits n, r).
Proof.
  unfold re_f, six_digits, four_digits, two_digits.
  rewrite !append_cons, append_nil_l. cbn [upto].
  eapply hd_cat_char; [apply digit_hit|].
  do 5 (apply hd_alt; eapply hd_cat_char; [apply digit_hit|]).
  reflexivity.
Qed.


(** The groups of two digits, value by value. *)
Tactic Notation "by_value" ident(k) integer(bound) :=
  do bound (destruct k as [|k]; [first [reflexivity | exfalso; lia]|]);
  exfalso; lia.

Lemma re_m_hd_nat r (k : nat) :
  (1 <= k <= 12)%nat ->
  hd_error (re_m (two_digits (Z.of_nat k) +:+ r))
  = Some (two_digits (Z.of_nat k), r).
Proof. intros H. by_value k 13. Qed.

Lemma re_d_hd_nat r (k : nat) :
  (1 <= k <= 31)%nat ->
  hd_error (re_d (two_digits (Z.of_nat k) +:+ r))
  = Some (two_digits (Z.of_nat k), r).
Proof. intros H. by_value k 32. Qed.

Lemma re_H_hd_nat r (k : nat) :
  (k <= 23)%nat ->
  hd_error (re_H (two_digits (Z.of_nat k) +:+ r))
  = Some (two_digits (Z.of_nat k), r).
Proof. intros H. by_value k 24. Qed.

Lemma re_M_hd_nat r (k : nat) :
  (k <= 59)%nat ->
  hd_error (re_M (two_digits (Z.of_nat k) +:+ r))
  = Some (two_digits (Z.of_nat k), r).
Proof. intros H. by_value k 60. Qed.

Lemma re_S_hd_nat r (k : nat) :
  (k <= 59)%nat ->
  hd_error (re_S (two_digits (Z.of_nat k) +:+ r))
  = Some (two_digits (Z.of_nat k), r).
Proof. intros H. by_value k 60. Qed.

Lemma re_m_hd n r :
  (1 <= n <= 12)%Z ->
  hd_error (re_m (two_digits n +:+ r)) = Some (two_digits n, r).
Proof.
  intros H. rewrite <- (Z2Nat.id n) by lia. apply re_m_hd_nat. lia.
Qed.

Lemma re_d_hd n r :
  (1 <= n <= 31)%Z ->
  hd_error (re_d (two_digits n +:+ r)) = Some (two_digits n, r).
Proof.
  intros H. rewrite <- (Z2Nat.id n) by lia. apply re_d_hd_nat. lia.
Qed.

Lemma re_H_hd n r :
  (0 <= n <= 23)%Z ->
  hd_error (re_H (two_digits n +:+ r)) = Some (two_digits n, r).
Proof.
  intros H. rewrite <- (Z2Nat.id n) by lia. apply re_H_hd_nat. lia.
Qed.

Lemma re_M_hd n r :
  (0 <= n <= 59)%Z ->
  hd_error (re_M (two_digits n +:+ r)) = Some (two_digits n, r).
Proof.
  intros H. rewrite <- (Z2Nat.id n) by lia. apply re_M_hd_nat. lia.
Qed.

Lemma re_S_hd n r :
  (0 <= n <= 59)%Z ->
  hd_error (re_S (two_digits n +:+ r)) = Some (two_digits n, r).
Proof.
  intros H. rewrite <- (Z2Nat.id n) by lia. apply re_S_hd_nat. lia.
Qed.

Lemma run_group_hd d p its s t r g rest :
  hd_error (p s) = Some (t, r) ->
  hd_error (run its r) = Some (g, rest) ->
  hd_error (run (IGroup d p :: its) s) = Some ((d, t) :: g, rest).
Proof.
  intros Hp Hr. cbn [run].
  destruct (p s) as [|[t' r'] l]; [discriminate|]. injection Hp as -> ->.
  cbn [flat_map fst snd].
  destruct (run its r) as [|[g' rest'] l']; [discriminate|].
  injection Hr as -> ->. reflexivity.
Qed.

Lemma run_lit_hd c its r :
  hd_error (run (ILit c :: its) (String c r)) = hd_error (run its r).
Proof.
  cbn [run]. unfold lit, cls. rewrite Ascii.eqb_refl.
  cbn [flat_map snd]. now rewrite app_nil_r.
Qed.

Lemma days_in_month_le y m : (days_in_month y m <= 31)%Z.
Proof.
  unfold days_in_month.
  repeat match goal with
         | |- context [if ?b then _ else _] => destruct b
         end; lia.
Qed.

Lemma between_spec lo x hi : between lo x hi = true -> (lo <= x <= hi)%Z.
Proof. unfold between. intros H. apply andb_true_iff in H. lia. Qed.

(** The pattern matches a timestamp written in full, field by field. *)
Lemma run_written_stamp dt :
  valid_datetime dt = true ->
  hd_error (run timestamp_items (written_stamp dt))
  = Some ([("Y"%char, four_digits (year dt));
           ("m"%char, two_digits (month dt));
           ("d"%char, two_digits (day dt));
           ("H"%char, two_digits (hour dt));
           ("M"%char, two_digits (minute dt));
           ("S"%char, two_digits (second dt));
           ("f"%char, six_digits (microsecond dt))], "").
Proof.
  unfold valid_datetime. intros H.
  do 6 (apply andb_true_iff in H; destruct H as [H ?]).
  repeat match goal with
         | H : between _ _ _ = true |- _ => apply between_spec in H
         end.
  pose proof (days_in_month_le (year dt) (month dt)).
  unfold timestamp_items, written_stamp.
  eapply run_group_hd; [apply re_Y_hd|]. rewrite run_lit_hd.
  eapply run_group_hd; [apply re_m_hd; lia|]. rewrite run_lit_hd.
  eapply run_group_hd; [apply re_d_hd; lia|]. rewrite run_lit_hd.
  eapply run_group_hd; [apply re_H_hd; lia|]. rewrite run_lit_hd.
  eapply run_group_hd; [apply re_M_hd; lia|]. rewrite run_lit_hd.
  eapply run_group_hd; [apply re_S_hd; lia|]. rewrite run_lit_hd.
  eapply run_group_hd; [apply re_f_hd|]. rewrite run_lit_hd.
  reflexivity.
Qed.

Lemma int_digit_string c r :
  Ascii.eqb c " " = false -> int (String c r) = int_digits 0 (String c r).
Proof. intros H. unfold int. cbn [lstrip]. now rewrite H. Qed.

Lemma int_two_digits n : (0 <= n < 100)%Z -> int (two_digits n) = n.
Proof.
  intros H. unfold two_digits.
  rewrite int_digit_string by apply digit_char_no_blank.
  cbn [int_digits]. rewrite !digit_val_char.
  Z.to_euclidean_division_equations. lia.
Qed.

Lemma int_four_digits n : (0 <= n < 10000)%Z -> int (four_digits n) = n.
Proof.
  intros H. unfold four_digits, two_digits.
  rewrite int_digit_string by apply digit_char_no_blank.
  cbn [int_digits]. rewrite !digit_val_char.
  Z.to_euclidean_division_equations. lia.
Qed.

Lemma int_six_digits n :
  (0 <= n < 1000000)%Z -> int (pad6 (six_digits n)) = n.
Proof.
  intros H. unfold pad6, six_digits, four_digits, two_digits.
  cbn [String.length Nat.sub repeat string_of_list_ascii].
  rewrite !append_cons, append_nil_l.
  rewrite int_digit_string by apply digit_char_no_blank.
  cbn [int_digits]. rewrite !digit_val_char.
  Z.to_euclidean_division_equations. lia.
Qed.

Lemma datetime_new_valid y mo d h mi s us :
  valid_datetime (Datetime y mo d h mi s us) = true ->
  datetime_new y mo d h mi s us = Ok (Datetime y mo d h mi s us).
Proof.
  unfold valid_datetime, datetime_new.
  cbn [year month day hour minute second microsecond]. intros H.
  do 6 (apply andb_true_iff in H; destruct H as [H ?]).
  repeat match goal with
         | H : between _ _ _ = true |- _ => rewrite H; clear H
         end.
  reflexivity.
Qed.

Lemma strptime_written_stamp dt :
  valid_datetime dt = true ->
  strptime_str (written_stamp dt) timestamp_format = Ok dt.
Proof.
  intros Hv. pose proof (run_written_stamp dt Hv) as Hrun.
  unfold strptime_str. rewrite compile_timestamp_format.
  destruct (run timestamp_items (written_stamp dt)) as [|[g rest] l];
    [discriminate|].
  injection Hrun as -> ->.
  cbn [String.eqb negb group_int group Ascii.eqb Bool.eqb].
  pose proof Hv as Hb. unfold valid_datetime in Hb.
  do 6 (apply andb_true_iff in Hb; destruct Hb as [Hb ?]).
  repeat match goal with
         | H : between _ _ _ = true |- _ => apply between_spec in H
         end.
  pose proof (days_in_month_le (year dt) (month dt)).
  rewrite int_four_digits, !int_two_digits, int_six_digits by lia.
  destruct dt as [y mo d h mi s us]. apply datetime_new_valid. exact Hv.
Qed.

Lemma written_stamp_format dt : matches_written_format (written_stamp dt) = true.
Proof.
  unfold matches_written_format, written_format, written_stamp, six_digits,
    four_digits, two_digits.
  rewrite !append_cons, !append_nil_l.
  cbn [matches_written field_letter existsb Ascii.eqb Bool.eqb orb andb].
  rewrite !digit_char_digit. reflexivity.
Qed.

(** X17: a timestamp written in full, [YYYY-MM-DDTHH:MM:SS.ffffffZ] with
    every field padded with zeros, is read back field by field, down to
    the microsecond, whenever the fields make a date of the calendar: it
    is the ['date'] of the row that [extract_audits] returns. *)
Theorem extract_audits_reads_written_stamp psi w dt row w' :
  valid_datetime dt = true ->
  resolve (heap w) psi timestamp_path = Ok (VStr (written_stamp dt)) ->
  extract_audits psi w = (Ok row, w') ->
  matches_written_format (written_stamp dt) = true
  /\ strptime_str (written_stamp dt) timestamp_format = Ok dt
  /\ exists d, row_dict (heap w') row = Some d
               /\ dict_get "date" d = Some (VDatetime dt).
Proof.
  intros Hv Hs Hx. split; [apply written_stamp_format|].
  pose proof (strptime_written_stamp dt Hv) as Hp. split; [exact Hp|].
  pose proof (extract_audits_stamp psi w _ Hs) as H. rewrite Hp in H.
  exact (H row w' Hx).
Qed.

Lemma extract_audits_reads_written_stamp_witness :
  exists d, row_dict (heap extracted_world) (VRef 4) = Some d
            /\ dict_get "date" d = Some (VDatetime sample_date).
Proof.
  refine (proj2 (proj2 (extract_audits_reads_written_stamp sample_report
                          sample_world sample_date (VRef 4) extracted_world
                          _ _ _)));
    vm_compute; reflexivity.
Defined.
